(** * Verification model of traffic-tacos/reservation-worker

    A shallow embedding of the Go sources of the reservation worker:
    - [Types]: the event record of pkg/types/event.go and its payload
      extractors;
    - [Legacy]: the first-generation SQS worker of internal/worker/worker.go
      ([Worker.parseEvent], [Worker.receiveAndProcessMessages],
      [Worker.processEventWithRetry], [NewWorker]/[Worker.Start]) and the
      [EventHandlerImpl] of internal/handler/handler.go;
    - [Handlers]: the handler event of internal/handler/event.go, the
      [ExpiredHandler] / [FailedHandler] workflows and, modelled from the
      spec, the [ApprovedHandler] workflow (its source is not included);
    - [Dispatch]: [Dispatcher.HandleEvent], the [Retryer.Do] loop and the
      configuration's [GetBackoffDuration];
    - [Poller]: [SQSPoller.pollOnce] and [SQSPoller.processMessage];
    - [Conf]: the environment configuration ([Load], [getEnvInt],
      [strconv.Atoi], [MergeWithSecrets]); [EnvConf]: the validated
      configuration ([Load], [Validate], [GetBackoffDuration]);
    - [Startup]: the allocations of [NewDispatcher]; [Retry]:
      [DoWithResult]; [Clients]: the reservation and inventory clients.

    Side effects (queue deletes, channel sends, downstream calls, sleeps)
    are recorded in an explicit trace; the results of the external
    collaborators (JSON decoder, queue, downstream services) are parameters
    of the model. JSON numbers ([float64] in Go) are modelled by their
    integral value. *)

From Stdlib Require Import ZArith Lia.
From Stdlib Require Import Ascii.
From stdpp Require Import base gmap strings list list_numbers.

Open Scope Z_scope.
Set Warnings "-register-all".

(** Go's [(value, error)] pair: either a value or an error message. *)
Inductive result (A : Type) : Type :=
| Ok (a : A)
| Err (msg : string).
Arguments Ok {A} a.
Arguments Err {A} msg.

Definition is_ok {A} (r : result A) : bool :=
  match r with Ok _ => true | Err _ => false end.

(** A decoded JSON value, as [encoding/json] stores it in an [interface{}]:
    nil, bool, float64, string, [[]interface{}] or [map[string]interface{}]. *)
Inductive json : Type :=
| JNull
| JBool (b : bool)
| JNumber (n : Z)
| JString (s : string)
| JArray (l : list json)
| JObject (kvs : list (string * json)).

(** Reservation status constants of the reservation client. *)
Definition StatusHold : string := "HOLD".
Definition StatusConfirmed : string := "CONFIRMED".
Definition StatusCancelled : string := "CANCELLED".
Definition StatusExpired : string := "EXPIRED".

(** Observable effects of the worker: calls on the queue, on the worker
    pool channel, on the downstream services, sleeps and handler runs. *)
Inductive effect : Type :=
| DeleteMessage (receipt : string)
| SendToPool (event_id : string)
| InvokeHandler (event_type : string) (attempt : Z)
| ReleaseHold (event_id reservation_id : string) (qty : Z) (seat_ids : list string)
| CommitReservation (event_id reservation_id : string)
| UpdateStatus (reservation_id status : string)
| Sleep (ns : Z)
| RecordOutcome (event_type outcome : string).

Module Types.

(** [types.Event] of pkg/types/event.go. *)
Record Event : Type := mkEvent {
  ID : string;
  Type_ : string;
  ReservationID : string;
  EventID : string;
  Timestamp : Z;
  Payload : gmap string json;
  TraceID : string
}.

Definition EventTypeReservationExpired : string := "reservation.expired".
Definition EventTypePaymentApproved : string := "payment.approved".
Definition EventTypePaymentFailed : string := "payment.failed".

Record ReservationExpiredPayload : Type := mkExpiredPayload {
  Quantity : Z;
  SeatIDs : list string
}.

Record PaymentApprovedPayload : Type := mkApprovedPayload {
  ap_PaymentIntentID : string;
  ap_Amount : Z
}.

Record PaymentFailedPayload : Type := mkFailedPayload {
  fp_PaymentIntentID : string;
  fp_Amount : Z
}.

(** [for _, id := range seatIDs { if strID, ok := id.(string); ok {
    payload.SeatIDs = append(payload.SeatIDs, strID) } }] *)
Fixpoint collect_strings (l : list json) : list string :=
  match l with
  | [] => []
  | JString s :: rest => s :: collect_strings rest
  | _ :: rest => collect_strings rest
  end.

(** [Event.GetReservationExpiredPayload] *)
Definition GetReservationExpiredPayload (e : Event) : result ReservationExpiredPayload :=
  let qty := match Payload e !! "qty" with
             | Some (JNumber q) => q
             | _ => 0
             end in
  let seats := match Payload e !! "seat_ids" with
               | Some (JArray ids) => collect_strings ids
               | _ => []
               end in
  Ok (mkExpiredPayload qty seats).

(** [Event.GetPaymentApprovedPayload] *)
Definition GetPaymentApprovedPayload (e : Event) : result PaymentApprovedPayload :=
  let pid := match Payload e !! "payment_intent_id" with
             | Some (JString s) => s
             | _ => ""
             end in
  let amount := match Payload e !! "amount" with
                | Some (JNumber a) => a
                | _ => 0
                end in
  Ok (mkApprovedPayload pid amount).

(** [Event.GetPaymentFailedPayload] *)
Definition GetPaymentFailedPayload (e : Event) : result PaymentFailedPayload :=
  let pid := match Payload e !! "payment_intent_id" with
             | Some (JString s) => s
             | _ => ""
             end in
  let amount := match Payload e !! "amount" with
                | Some (JNumber a) => a
                | _ => 0
                end in
  Ok (mkFailedPayload pid amount).

(** A field is "usable" for an extractor when it is present with the
    expected JSON type. *)
Definition is_number (v : option json) : bool :=
  match v with Some (JNumber _) => true | _ => false end.
Definition is_string (v : option json) : bool :=
  match v with Some (JString _) => true | _ => false end.
Definition is_array (v : option json) : bool :=
  match v with Some (JArray _) => true | _ => false end.

End Types.

(** Sequencing of a downstream call: [svc] says whether the call succeeds;
    on failure the rest of the workflow is skipped and the error returned,
    as in [if err := call(...); err != nil { return fmt.Errorf(...) }]. *)
Definition call (svc : effect -> bool) (e : effect) (msg : string)
    (k : list effect * result unit) : list effect * result unit :=
  if svc e then (e :: fst k, snd k) else ([e], Err msg).

Module Legacy.
Import Types.

(** [types.Message] of the SQS SDK: pointer fields are options. *)
Record Message : Type := mkMessage {
  MessageId : option string;
  Body : option string;
  ReceiptHandle : option string
}.

Definition set_trace_id (ev : Event) (t : string) : Event :=
  mkEvent (ID ev) (Type_ ev) (ReservationID ev) (EventID ev) (Timestamp ev)
          (Payload ev) t.

Section Parse.
(** [json.Unmarshal] into an [Event]: [None] is a decoding error. *)
Variable unmarshal : string -> option Event.

(** [Worker.parseEvent]. The outer [None] is the runtime panic of
    [*msg.ReceiptHandle] on a nil receipt handle. *)
Definition parseEvent (msg : Message) : option (result Event) :=
  match Body msg with
  | None => Some (Err "message body is nil")
  | Some b =>
      match unmarshal b with
      | None => Some (Err "failed to unmarshal event")
      | Some ev =>
          if String.eqb (ID ev) "" then Some (Err "event id is required")
          else if String.eqb (ReservationID ev) "" then Some (Err "reservation_id is required")
          else if String.eqb (Type_ ev) "" then Some (Err "event type is required")
          else match ReceiptHandle msg with
               | None => None
               | Some rh => Some (Ok (set_trace_id ev rh))
               end
      end
  end.

(** [Worker.deleteMessage(ctx, receiptHandle)]: a nil handle is refused by
    the SDK's parameter validation, so no delete reaches the queue. *)
Definition delete_effect (rh : option string) : list effect :=
  match rh with Some r => [DeleteMessage r] | None => [] end.

(** The [select] of [Worker.receiveAndProcessMessages] for one event:
    the send on [jobChan] (a slot is free; the workers drain the channel
    while the loop runs), [<-ctx.Done()], or the [default] branch; Go
    picks one of the ready cases at random. *)
Inductive select_case : Type :=
| SelectSend
| SelectDone
| SelectDefault.

(** How the loop ends: after the last message, on [return ctx.Err()], or
    in a nil pointer panic. *)
Inductive loop_exit : Type :=
| Finished
| ContextDone
| Panicked.

(** The loop of [Worker.receiveAndProcessMessages] over the received
    batch; [sel n] is the case the [select] takes for the [n]-th message.
    Every log call except the one under [ctx.Done()] dereferences
    [*msg.MessageId], which panics when it is nil (for a malformed message
    before the delete, for a sent event after the send). Returns the
    effects, the events sent to the pool and how the loop ended. *)
Fixpoint receiveAndProcessMessages (sel : nat -> select_case) (n : nat)
    (msgs : list Message) : list effect * list Event * loop_exit :=
  match msgs with
  | [] => ([], [], Finished)
  | msg :: rest =>
      match parseEvent msg with
      | None => ([], [], Panicked)
      | Some (Err _) =>
          match MessageId msg with
          | None => ([], [], Panicked)
          | Some _ =>
              let '(t, q, x) := receiveAndProcessMessages sel (S n) rest in
              (delete_effect (ReceiptHandle msg) ++ t, q, x)
          end
      | Some (Ok ev) =>
          match sel n with
          | SelectSend =>
              match MessageId msg with
              | None => ([SendToPool (ID ev)], [ev], Panicked)
              | Some _ =>
                  let '(t, q, x) := receiveAndProcessMessages sel (S n) rest in
                  (SendToPool (ID ev) :: t, ev :: q, x)
              end
          | SelectDone => ([], [], ContextDone)
          | SelectDefault =>
              match MessageId msg with
              | None => ([], [], Panicked)
              | Some _ => receiveAndProcessMessages sel (S n) rest
              end
          end
      end
  end.
End Parse.

(** [EventHandlerImpl.handleReservationExpired] *)
Definition handleReservationExpired (svc : effect -> bool) (ev : Event)
    : list effect * result unit :=
  match GetReservationExpiredPayload ev with
  | Err m => ([], Err m)
  | Ok p =>
      call svc (UpdateStatus (ReservationID ev) StatusExpired)
        "failed to update reservation status"
        (call svc (ReleaseHold (EventID ev) (ReservationID ev) (Quantity p) (SeatIDs p))
           "failed to release inventory hold" ([], Ok tt))
  end.

(** [EventHandlerImpl.handlePaymentApproved]: step 2 (inventory commit) is
    left out of the code, see the comment at handler.go line 111. *)
Definition handlePaymentApproved (svc : effect -> bool) (ev : Event)
    : list effect * result unit :=
  match GetPaymentApprovedPayload ev with
  | Err m => ([], Err m)
  | Ok _ =>
      call svc (UpdateStatus (ReservationID ev) StatusConfirmed)
        "failed to update reservation status" ([], Ok tt)
  end.

(** [EventHandlerImpl.handlePaymentFailed] *)
Definition handlePaymentFailed (svc : effect -> bool) (ev : Event)
    : list effect * result unit :=
  match GetPaymentFailedPayload ev with
  | Err m => ([], Err m)
  | Ok _ =>
      call svc (UpdateStatus (ReservationID ev) StatusCancelled)
        "failed to update reservation status" ([], Ok tt)
  end.

(** [EventHandlerImpl.Handle] *)
Definition Handle (svc : effect -> bool) (ev : Event) : list effect * result unit :=
  if String.eqb (Type_ ev) EventTypeReservationExpired then handleReservationExpired svc ev
  else if String.eqb (Type_ ev) EventTypePaymentApproved then handlePaymentApproved svc ev
  else if String.eqb (Type_ ev) EventTypePaymentFailed then handlePaymentFailed svc ev
  else ([], Err "unknown event type").

(** The closure [operation] of [Worker.processEventWithRetry], at its
    [attempt]-th run: the handler is invoked, and on success the message is
    deleted with [event.TraceID] as receipt handle. *)
Definition operation (svc : effect -> bool) (ev : Event) (attempt : Z)
    : list effect * bool :=
  let '(t, r) := Handle svc ev in
  if is_ok r then (InvokeHandler (Type_ ev) attempt :: t ++ [DeleteMessage (TraceID ev)], true)
  else (InvokeHandler (Type_ ev) attempt :: t, false).

(** [backoff.Retry(operation, backoff.WithContext(strategy, ctx))] for at
    most [n] runs of [operation]. [next k] is the strategy's
    [NextBackOff()] after the [k]-th failed run: [None] is [backoff.Stop]
    (elapsed time above [MaxElapsedTime] or context cancelled), [Some d] a
    wait of [d] ns. The boolean is [true] when the loop returned [nil]. *)
Fixpoint retry (svc : effect -> bool) (next : Z -> option Z) (ev : Event)
    (n : nat) (attempt : Z) : list effect * bool :=
  match n with
  | O => ([], false)
  | S n' =>
      let '(t, ok) := operation svc ev (attempt + 1) in
      if ok then (t, true)
      else match next (attempt + 1) with
           | None => (t, false)
           | Some d =>
               let '(t', ok') := retry svc next ev n' (attempt + 1) in
               (t ++ Sleep d :: t', ok')
           end
  end.

Definition processEventWithRetry (svc : effect -> bool) (next : Z -> option Z)
    (ev : Event) (n : nat) : list effect * bool :=
  retry svc next ev n 0.

(** The worker pool of [NewWorker] / [Worker.Start]: the buffered [jobChan]
    and one slot per worker goroutine, [Some ev] while it runs
    [processEventWithRetry] on [ev]. *)
Record Pool : Type := mkPool {
  jobChan : list Event;
  chanCap : Z;
  workers : list (option Event)
}.

(** [make(chan *Event, cfg.WorkerConcurrency*2)]: a negative size panics. *)
Definition NewWorker (workerConcurrency : Z) : option Pool :=
  if Z.ltb (workerConcurrency * 2) 0 then None
  else Some (mkPool [] (workerConcurrency * 2) []).

(** [for i := 0; i < w.workerCount; i++ { go w.worker(ctx, i) }] *)
Definition Start (workerCount : Z) (p : Pool) : Pool :=
  mkPool (jobChan p) (chanCap p) (workers p ++ replicate (Z.to_nat workerCount) None).

(** One step of the running pool. *)
Inductive step : Pool -> Pool -> Prop :=
| step_send p ev :
    (* [case w.jobChan <- event:] *)
    Z.of_nat (length (jobChan p)) < chanCap p ->
    step p (mkPool (jobChan p ++ [ev]) (chanCap p) (workers p))
| step_drop p :
    (* [default:] worker pool full, message left for redelivery *)
    Z.of_nat (length (jobChan p)) = chanCap p ->
    step p p
| step_take p i ev rest :
    (* [case event, ok := <-w.jobChan:] in an idle worker *)
    workers p !! i = Some None ->
    jobChan p = ev :: rest ->
    step p (mkPool rest (chanCap p) (<[i := Some ev]> (workers p)))
| step_done p i ev :
    (* [processEventWithRetry] returns *)
    workers p !! i = Some (Some ev) ->
    step p (mkPool (jobChan p) (chanCap p) (<[i := None]> (workers p))).

Definition in_flight (p : Pool) : nat := length (filter is_Some (workers p)).

End Legacy.

(** Two's complement wrap-around of Go's fixed-width integers. *)
Definition wrap (bits : Z) (x : Z) : Z :=
  let r := x mod 2 ^ bits in
  if Z.leb (2 ^ (bits - 1)) r then r - 2 ^ bits else r.
Definition wrap64 : Z -> Z := wrap 64.
Definition wrap32 : Z -> Z := wrap 32.

Module Handlers.

(** [handler.Event] of internal/handler/event.go; [Detail] is the raw
    JSON text of the [detail] field. *)
Record Event : Type := mkEvent {
  ID : string;
  Type_ : string;
  Source : string;
  Detail : string;
  Time : Z;
  TraceID : string;
  Version : string;
  Region : string;
  Account : string;
  Resources : list string
}.

Definition EventTypeReservationExpired : string := "reservation.expired".
Definition EventTypePaymentApproved : string := "payment.approved".
Definition EventTypePaymentFailed : string := "payment.failed".
Definition EventTypeReservationHoldCreated : string := "reservation.hold.created".
Definition EventTypeReservationHoldExpired : string := "reservation.hold.expired".

Record ReservationExpiredDetail : Type := mkExpiredDetail {
  ed_ReservationID : string;
  ed_EventID : string;
  ed_Quantity : Z;
  ed_SeatIDs : list string;
  ed_UserID : string;
  ed_ExpiresAt : string
}.

Record PaymentApprovedDetail : Type := mkApprovedDetail {
  ad_ReservationID : string;
  ad_PaymentIntentID : string;
  ad_Amount : Z;
  ad_Currency : string;
  ad_EventID : string;
  ad_UserID : string;
  ad_SeatIDs : list string;
  ad_Quantity : Z
}.

Record PaymentFailedDetail : Type := mkFailedDetail {
  fd_ReservationID : string;
  fd_PaymentIntentID : string;
  fd_Amount : Z;
  fd_Currency : string;
  fd_ErrorCode : string;
  fd_ErrorMessage : string;
  fd_EventID : string;
  fd_UserID : string;
  fd_SeatIDs : list string;
  fd_Quantity : Z
}.

(** The dynamic type of the [interface{}] returned by [ParseEventDetail]. *)
Inductive detail : Type :=
| DExpired (d : ReservationExpiredDetail)
| DApproved (d : PaymentApprovedDetail)
| DFailed (d : PaymentFailedDetail).

(** [json.Unmarshal] of the raw detail into each detail struct. *)
Record decoders : Type := mkDecoders {
  decode_expired : string -> option ReservationExpiredDetail;
  decode_approved : string -> option PaymentApprovedDetail;
  decode_failed : string -> option PaymentFailedDetail
}.

(** [Event.ParseEventDetail] *)
Definition ParseEventDetail (dec : decoders) (e : Event) : result detail :=
  if String.eqb (Type_ e) EventTypeReservationExpired
     || String.eqb (Type_ e) EventTypeReservationHoldExpired then
    match decode_expired dec (Detail e) with
    | Some d => Ok (DExpired d) | None => Err "invalid character"
    end
  else if String.eqb (Type_ e) EventTypePaymentApproved then
    match decode_approved dec (Detail e) with
    | Some d => Ok (DApproved d) | None => Err "invalid character"
    end
  else if String.eqb (Type_ e) EventTypePaymentFailed then
    match decode_failed dec (Detail e) with
    | Some d => Ok (DFailed d) | None => Err "invalid character"
    end
  else Err "unknown event type".

(** [ExpiredHandler.Handle]: [svc] gives the outcome of each downstream
    call made with the handler's context. *)
Definition ExpiredHandler_Handle (dec : decoders) (svc : effect -> bool) (e : Event)
    : list effect * result unit :=
  match ParseEventDetail dec e with
  | Err m => ([], Err m)
  | Ok (DExpired d) =>
      (* Step 1: Release hold in inventory service *)
      call svc (ReleaseHold (ed_EventID d) (ed_ReservationID d) (ed_Quantity d) (ed_SeatIDs d))
        "failed to release hold"
        (* Step 2: Update reservation status to EXPIRED *)
        (call svc (UpdateStatus (ed_ReservationID d) StatusExpired)
           "failed to update reservation status" ([], Ok tt))
  | Ok _ => ([], Err "invalid event detail type for expired event")
  end.

(** [FailedHandler.Handle]; the quantity goes through [int32(...)]. *)
Definition FailedHandler_Handle (dec : decoders) (svc : effect -> bool) (e : Event)
    : list effect * result unit :=
  match ParseEventDetail dec e with
  | Err m => ([], Err m)
  | Ok (DFailed d) =>
      call svc (UpdateStatus (fd_ReservationID d) StatusCancelled)
        "failed to update reservation status"
        (if negb (String.eqb (fd_EventID d) "") && negb (Nat.eqb (length (fd_SeatIDs d)) 0)
         then call svc (ReleaseHold (fd_EventID d) (fd_ReservationID d)
                          (wrap32 (fd_Quantity d)) (fd_SeatIDs d))
                "failed to release hold" ([], Ok tt)
         else ([], Ok tt))
  | Ok _ => ([], Err "invalid event detail type for failed event")
  end.

(** Modelled from the spec: [ApprovedHandler.Handle], the handler that
    cmd/reservation-worker/main.go builds with [handler.NewApprovedHandler];
    its source is not among the sources. Section 4.4.2 of the spec:
    [UpdateStatus(reservation_id, CONFIRMED)] first, then
    [CommitReservation] only when the detail carries an [event_id] and a
    non-empty [seat_ids]. The parse of the detail and the error handling
    are those of its siblings [ExpiredHandler.Handle] and
    [FailedHandler.Handle]. *)
Definition ApprovedHandler_Handle (dec : decoders) (svc : effect -> bool) (e : Event)
    : list effect * result unit :=
  match ParseEventDetail dec e with
  | Err m => ([], Err m)
  | Ok (DApproved d) =>
      call svc (UpdateStatus (ad_ReservationID d) StatusConfirmed)
        "failed to update reservation status"
        (if negb (String.eqb (ad_EventID d) "") && negb (Nat.eqb (length (ad_SeatIDs d)) 0)
         then call svc (CommitReservation (ad_EventID d) (ad_ReservationID d))
                "failed to commit reservation" ([], Ok tt)
         else ([], Ok tt))
  | Ok _ => ([], Err "invalid event detail type for approved event")
  end.

End Handlers.

Module Dispatch.
Import Handlers.

(** The fields of [config.Config] (internal/config, the [Load() *Config]
    variant that cmd/reservation-worker/main.go builds) that the core reads. *)
Record Config : Type := mkConfig {
  SQSWaitTime : Z;
  WorkerConcurrency : Z;
  MaxRetries : Z;
  BackoffBaseMS : Z
}.

(** [for i := 0; i < attempt && i < 4; i++ { multiplier *= 2 }] *)
Fixpoint multiplier_loop (fuel : nat) (i attempt multiplier : Z) : Z :=
  match fuel with
  | O => multiplier
  | S f =>
      if Z.ltb i attempt && Z.ltb i 4
      then multiplier_loop f (i + 1) attempt (wrap64 (multiplier * 2))
      else multiplier
  end.

(** [Config.GetBackoffDuration]:
    [time.Duration(c.BackoffBaseMS*multiplier) * time.Millisecond], in
    nanoseconds. The loop runs at most four times. *)
Definition GetBackoffDuration (c : Config) (attempt : Z) : Z :=
  let multiplier := multiplier_loop 4 0 attempt 1 in
  wrap64 (wrap64 (BackoffBaseMS c * multiplier) * 1000000).

(** What [HandleEvent] does, in order: handler attempts (with the
    downstream calls the handler made), outcome metrics and backoff
    sleeps. *)
Inductive dstep : Type :=
| Attempt (attempt : Z) (calls : list effect)
| Outcome (outcome : string)
| Backoff (ns : Z).

Definition is_attempt (s : dstep) : bool :=
  match s with Attempt _ _ => true | _ => false end.

(** A handler run: event, whether the context is done when the run starts,
    attempt index (the downstream results may change between attempts). *)
Definition handler_fn : Type := Event -> bool -> Z -> list effect * result unit.

(** The fields of [Dispatcher] that [HandleEvent] reads. *)
Record Dispatcher : Type := mkDispatcher {
  config : Config;
  expiredHandler : handler_fn;
  approvedHandler : handler_fn;
  failedHandler : handler_fn
}.

(** [switch event.Type] of [HandleEvent]. *)
Definition route (d : Dispatcher) (t : string) : option handler_fn :=
  if String.eqb t EventTypeReservationExpired || String.eqb t EventTypeReservationHoldExpired
  then Some (expiredHandler d)
  else if String.eqb t EventTypePaymentApproved then Some (approvedHandler d)
  else if String.eqb t EventTypePaymentFailed then Some (failedHandler d)
  else None.

(** [Dispatcher.HandleEvent], whose retry is the recursive call
    [d.HandleEvent(ctx, event, attempt+1)] after [time.Sleep(backoff)].
    [ctx k] tells whether [ctx] is done when attempt [k] starts; the code
    only hands [ctx] to the handler. [fuel] bounds the recursion depth;
    [HandleEvent] below gives it exactly [MaxRetries - attempt], so the
    [O] branch is never taken (lemma [HandleEvent_unfold]). *)
Fixpoint HandleEvent_fuel (fuel : nat) (d : Dispatcher) (ctx : Z -> bool)
    (ev : Event) (attempt : Z) : list dstep * result unit :=
  match route d (Type_ ev) with
  | None => ([Outcome "invalid_payload"], Err "unknown event type")
  | Some h =>
      let '(calls, r) := h ev (ctx attempt) attempt in
      match r with
      | Ok _ => ([Attempt attempt calls; Outcome "success"], Ok tt)
      | Err m =>
          if Z.leb (MaxRetries (config d)) attempt then
            ([Attempt attempt calls; Outcome "failed"], Err m)
          else
            match fuel with
            | O => ([Attempt attempt calls], Err m)
            | S f =>
                let '(rest, r') := HandleEvent_fuel f d ctx ev (attempt + 1) in
                (Attempt attempt calls :: Outcome "retried"
                   :: Backoff (GetBackoffDuration (config d) attempt) :: rest, r')
            end
      end
  end.

Definition HandleEvent (d : Dispatcher) (ctx : Z -> bool) (ev : Event) (attempt : Z)
    : list dstep * result unit :=
  HandleEvent_fuel (Z.to_nat (MaxRetries (config d) - attempt)) d ctx ev attempt.

(** Number of handler attempts in a trace. *)
Fixpoint attempts (tr : list dstep) : nat :=
  match tr with
  | [] => O
  | Attempt _ _ :: rest => S (attempts rest)
  | _ :: rest => attempts rest
  end.

(** [Retryer.Do] of the retry package. [done k]: the context is done
    before attempt [k] begins, or during the wait that precedes it, in
    which case the [select] on [ctx.Done()] ends the wait early. *)
Fixpoint Retryer_Do_fuel (fuel : nat) (c : Config) (done : Z -> bool)
    (fn : bool -> Z -> bool) (attempt : Z) : list dstep * result unit :=
  match fuel with
  | O => ([], Err "operation failed after attempts")
  | S f =>
      if Z.ltb attempt (MaxRetries c) then
        if done attempt then ([], Err "context canceled")
        else if fn false attempt then ([Attempt attempt []], Ok tt)
        else if Z.eqb attempt (MaxRetries c - 1) then
          ([Attempt attempt []], Err "operation failed after attempts")
        else if done (attempt + 1) then
          ([Attempt attempt []], Err "context canceled")
        else
          let '(rest, r) := Retryer_Do_fuel f c done fn (attempt + 1) in
          (Attempt attempt [] :: Backoff (GetBackoffDuration c attempt) :: rest, r)
      else ([], Err "operation failed after attempts")
  end.

Definition Retryer_Do (c : Config) (done : Z -> bool) (fn : bool -> Z -> bool)
    : list dstep * result unit :=
  Retryer_Do_fuel (S (Z.to_nat (MaxRetries c))) c done fn 0.

End Dispatch.

Module Poller.
Import Handlers.

(** [types.Message] with the message attributes the poller reads:
    [MessageAttributes] maps a name to its [StringValue]. *)
Record Message : Type := mkMessage {
  MessageId : option string;
  Body : option string;
  ReceiptHandle : option string;
  MessageAttributes : option (gmap string (option string))
}.

(** Outcome of [select { case p.eventsChan <- &event: ...
    case <-ctx.Done(): ... case <-time.After(30 * time.Second): ... }]. *)
Inductive send_outcome : Type := Sent | CtxDone | SendTimeout.

Definition with_trace_id (e : Event) (t : string) : Event :=
  mkEvent (ID e) (Type_ e) (Source e) (Detail e) (Time e) t
          (Version e) (Region e) (Account e) (Resources e).

Definition with_id (e : Event) (i : string) : Event :=
  mkEvent i (Type_ e) (Source e) (Detail e) (Time e) (TraceID e)
          (Version e) (Region e) (Account e) (Resources e).

Section Poll.
(** [json.Unmarshal] of a body into a [handler.Event]. *)
Variable unmarshal : string -> option Event.
(** The channel send's outcome for each event offered to the pool. *)
Variable send : Event -> send_outcome.

(** The event [processMessage] builds before offering it to the pool. *)
Definition decode_message (m : Message) : result Event :=
  match Body m with
  | None => Err "message body is nil"
  | Some b =>
      match unmarshal b with
      | None => Err "failed to unmarshal event"
      | Some e0 =>
          let e1 := match MessageAttributes m with
                    | Some attrs =>
                        match attrs !! "TraceId" with
                        | Some (Some t) => with_trace_id e0 t
                        | _ => e0
                        end
                    | None => e0
                    end in
          match MessageId m with
          | Some mid => if String.eqb (ID e1) "" then Ok (with_id e1 mid) else Ok e1
          | None => Ok e1
          end
      end
  end.

(** [SQSPoller.processMessage]: [Ok e] when [e] was sent to the pool. *)
Definition processMessage (m : Message) : result Event :=
  match decode_message m with
  | Err msg => Err msg
  | Ok e =>
      match send e with
      | Sent => Ok e
      | CtxDone => Err "context canceled"
      | SendTimeout => Err "timeout sending event to worker pool"
      end
  end.

(** [SQSPoller.deleteMessage]: a nil handle is refused by the SDK. *)
Definition delete_effect (m : Message) : list effect :=
  match ReceiptHandle m with Some r => [DeleteMessage r] | None => [] end.

(** The [for _, message := range result.Messages] loop of
    [SQSPoller.pollOnce]: the effects on the queue and the pool, and the
    events handed to the pool. *)
Fixpoint pollOnce_loop (msgs : list Message) : list effect * list Event :=
  match msgs with
  | [] => ([], [])
  | m :: rest =>
      let '(t, q) := pollOnce_loop rest in
      match processMessage m with
      | Err _ => (t, q)
      | Ok e => (SendToPool (ID e) :: delete_effect m ++ t, e :: q)
      end
  end.

(** [SQSPoller.pollOnce] on the result of [ReceiveMessage]. *)
Definition pollOnce (received : result (list Message)) : result (list effect * list Event) :=
  match received with
  | Err msg => Err msg
  | Ok msgs => Ok (pollOnce_loop msgs)
  end.
End Poll.

End Poller.

Module Wiring.
Import Handlers Dispatch.

(** [NewDispatcher]: the dispatcher's handlers run the handler workflows
    with the downstream clients; [svc done k] gives the outcome of the
    downstream calls made during attempt [k] with a context that is done
    or not. The approved handler's source ([handler.ApprovedHandler]) is
    not part of the sources, so it is a parameter here. *)
Definition NewDispatcher (cfg : Config) (dec : decoders)
    (svc : bool -> Z -> effect -> bool) (approved : handler_fn) : Dispatcher :=
  mkDispatcher cfg
    (fun ev done k => ExpiredHandler_Handle dec (svc done k) ev)
    approved
    (fun ev done k => FailedHandler_Handle dec (svc done k) ev).

(** The dispatcher of cmd/reservation-worker/main.go, its approved handler
    being the model of [ApprovedHandler.Handle] above. *)
Definition NewDispatcher_main (cfg : Config) (dec : decoders)
    (svc : bool -> Z -> effect -> bool) : Dispatcher :=
  NewDispatcher cfg dec svc (fun ev done k => ApprovedHandler_Handle dec (svc done k) ev).

End Wiring.

(** ** Environment configuration: [config.Load] returning a config (the variant
    that cmd/reservation-worker/main.go calls) and
    [Config.MergeWithSecrets]. *)
Module Conf.

(** The process environment. *)
Definition env : Type := gmap string string.

(** [os.Getenv]: [""] for an unset variable. *)
Definition Getenv (e : env) (key : string) : string :=
  match e !! key with Some v => v | None => "" end.

(** [getEnv] *)
Definition getEnv (e : env) (key defaultValue : string) : string :=
  let value := Getenv e key in
  if String.eqb value "" then defaultValue else value.

Definition MaxInt64 : Z := 2 ^ 63 - 1.

(** [ch -= '0'; if ch > 9 { return 0, syntaxError(...) }] on a byte. *)
Definition digit_value (c : ascii) : option Z :=
  let d := Z.of_nat (Ascii.nat_of_ascii c) - 48 in
  if (0 <=? d) && (d <=? 9) then Some d else None.

Fixpoint digits_acc (acc : Z) (s : string) : option Z :=
  match s with
  | EmptyString => Some acc
  | String c rest =>
      match digit_value c with
      | Some d => digits_acc (acc * 10 + d) rest
      | None => None
      end
  end.

(** [strconv.Atoi] for a 64-bit [int]; [None] is its syntax or range
    error. An optional sign, then at least one decimal digit, the value
    within [[-2^63, 2^63 - 1]]: the fast path (fewer than 19 bytes) and the
    [ParseInt(s, 10, 0)] path accept the same strings with the same
    values. *)
Definition Atoi (s : string) : option Z :=
  let '(neg, body) :=
    match s with
    | String c rest =>
        if Ascii.eqb c "-"%char then (true, rest)
        else if Ascii.eqb c "+"%char then (false, rest)
        else (false, s)
    | EmptyString => (false, s)
    end in
  match body with
  | EmptyString => None
  | String _ _ =>
      match digits_acc 0 body with
      | None => None
      | Some n =>
          if neg then (if n <=? 2 ^ 63 then Some (- n) else None)
          else if n <=? MaxInt64 then Some n else None
      end
  end.

(** [strconv.ParseBool] *)
Definition ParseBool (s : string) : option bool :=
  if existsb (String.eqb s) ["1"; "t"; "T"; "true"; "TRUE"; "True"] then Some true
  else if existsb (String.eqb s) ["0"; "f"; "F"; "false"; "FALSE"; "False"] then Some false
  else None.

(** [getEnvInt] *)
Definition getEnvInt (e : env) (key : string) (defaultValue : Z) : Z :=
  let value := Getenv e key in
  if String.eqb value "" then defaultValue
  else match Atoi value with Some i => i | None => defaultValue end.

(** [getEnvBool] *)
Definition getEnvBool (e : env) (key : string) (defaultValue : bool) : bool :=
  let value := Getenv e key in
  if String.eqb value "" then defaultValue
  else match ParseBool value with Some b => b | None => defaultValue end.

(** [config.Config] *)
Record Config : Type := mkConfig {
  AWSProfile : string;
  AWSRegion : string;
  UseSecretManager : bool;
  SecretName : string;
  SQSQueueURL : string;
  SQSWaitTime : Z;
  SQSRegion : string;
  WorkerConcurrency : Z;
  MaxRetries : Z;
  BackoffBaseMS : Z;
  InventoryGRPCAddr : string;
  ReservationAPIBase : string;
  OTELExporterEndpoint : string;
  LogLevel : string;
  ServerPort : string;
  GRPCDebugPort : string
}.

(** [Load] *)
Definition Load (e : env) : Config :=
  mkConfig
    (getEnv e "AWS_PROFILE" "")
    (getEnv e "AWS_REGION" "ap-northeast-2")
    (getEnvBool e "USE_SECRET_MANAGER" false)
    (getEnv e "SECRET_NAME" "traffictacos/reservation-worker")
    (getEnv e "SQS_QUEUE_URL" "https://sqs.ap-northeast-2.amazonaws.com/123/reservation-events")
    (getEnvInt e "SQS_WAIT_TIME" 20)
    (getEnv e "AWS_REGION" "ap-northeast-2")
    (getEnvInt e "WORKER_CONCURRENCY" 20)
    (getEnvInt e "MAX_RETRIES" 5)
    (getEnvInt e "BACKOFF_BASE_MS" 1000)
    (getEnv e "INVENTORY_GRPC_ADDR" "inventory-svc:8021")
    (getEnv e "RESERVATION_API_BASE" "http://reservation-api:8010")
    (getEnv e "OTEL_EXPORTER_OTLP_ENDPOINT" "http://otel-collector:4317")
    (getEnv e "LOG_LEVEL" "info")
    (getEnv e "SERVER_PORT" "8040")
    (getEnv e "GRPC_DEBUG_PORT" "8041").

(** The fields the dispatcher reads. *)
Definition core (c : Config) : Dispatch.Config :=
  Dispatch.mkConfig (SQSWaitTime c) (WorkerConcurrency c) (MaxRetries c) (BackoffBaseMS c).

(** [SecretConfig] *)
Record SecretConfig : Type := mkSecretConfig {
  sc_SQSQueueURL : string;
  sc_InventoryGRPCAddr : string;
  sc_ReservationAPIBase : string;
  sc_OTELEndpoint : string
}.

(** [LoadSecretsFromAWS]: [fetch region secretName profile] is the outcome
    of loading the AWS configuration and of [GetSecretValue] ([Ok None]
    for a nil [SecretString]); [decode] is [json.Unmarshal] into a zero
    [SecretConfig]. *)
Definition LoadSecretsFromAWS
    (fetch : string -> string -> string -> result (option string))
    (decode : string -> option SecretConfig)
    (region secretName profile : string) : result SecretConfig :=
  match fetch region secretName profile with
  | Err m => Err m
  | Ok None => Ok (mkSecretConfig "" "" "" "")
  | Ok (Some s) =>
      match decode s with
      | Some sc => Ok sc
      | None => Err "failed to parse secret value"
      end
  end.

(** The assignments [c.SQSQueueURL = ...], [c.InventoryGRPCAddr = ...],
    [c.ReservationAPIBase = ...], [c.OTELExporterEndpoint = ...]. *)
Definition with_secret_fields (c : Config) (queue inventory reservation otel : string)
    : Config :=
  mkConfig (AWSProfile c) (AWSRegion c) (UseSecretManager c) (SecretName c)
    queue (SQSWaitTime c) (SQSRegion c) (WorkerConcurrency c) (MaxRetries c)
    (BackoffBaseMS c) inventory reservation otel (LogLevel c) (ServerPort c)
    (GRPCDebugPort c).

(** [if secrets.F != "" { c.F = secrets.F }] *)
Definition override (current secret : string) : string :=
  if String.eqb secret "" then current else secret.

(** [Config.MergeWithSecrets]: the error and the config after the call. *)
Definition MergeWithSecrets
    (fetch : string -> string -> string -> result (option string))
    (decode : string -> option SecretConfig) (c : Config) : result unit * Config :=
  if negb (UseSecretManager c) then (Ok tt, c)
  else match LoadSecretsFromAWS fetch decode (AWSRegion c) (SecretName c) (AWSProfile c) with
       | Err m => (Err (String.append "failed to load secrets: " m), c)
       | Ok s =>
           (Ok tt,
            with_secret_fields c
              (override (SQSQueueURL c) (sc_SQSQueueURL s))
              (override (InventoryGRPCAddr c) (sc_InventoryGRPCAddr s))
              (override (ReservationAPIBase c) (sc_ReservationAPIBase s))
              (override (OTELExporterEndpoint c) (sc_OTELEndpoint s)))
       end.

(** The decimal text of a sequence of digits and its value, to state what
    [Atoi] reads. *)
Definition digit_char (d : Z) : ascii := Ascii.ascii_of_nat (Z.to_nat (48 + d)).

Fixpoint digits_string (ds : list Z) : string :=
  match ds with
  | [] => EmptyString
  | d :: rest => String (digit_char d) (digits_string rest)
  end.

Definition digits_value (ds : list Z) : Z := fold_left (fun acc d => acc * 10 + d) ds 0.

Definition is_digit (d : Z) : Prop := 0 <= d <= 9.

End Conf.

(** ** The allocations of [NewDispatcher] *)
Module Startup.

(** Whether the runtime hands out a buffer of the given number of bytes:
    the size limit ([maxAlloc] less the channel header, whose size depends
    on the Go release) and the memory available decide it, and a refused
    buffer ends the program (a panic or a fatal out-of-memory error). *)
Definition allocator : Type := Z -> bool.

(** [make(chan T, size)]: panics ([None]) when [size < 0]; otherwise the
    buffer of [elemSize * size] bytes is allocated or the program dies. *)
Definition makechan (alloc : allocator) (elemSize size : Z) : option Z :=
  if size <? 0 then None else if alloc (elemSize * size) then Some size else None.

(** [make([]T, len)]: panics when [len < 0]; otherwise as [makechan]. *)
Definition makeslice (alloc : allocator) (elemSize len : Z) : option Z :=
  if len <? 0 then None else if alloc (elemSize * len) then Some len else None.

(** [make(chan *handler.Event, config.WorkerConcurrency*2)],
    [make(chan chan *handler.Event, config.WorkerConcurrency)] and
    [make([]*Worker, config.WorkerConcurrency)] in [NewDispatcher]
    (pointer elements, 8 bytes): the capacities and the length. *)
Definition NewDispatcher_alloc (alloc : allocator) (c : Dispatch.Config) : option (Z * Z * Z) :=
  match makechan alloc 8 (wrap64 (Dispatch.WorkerConcurrency c * 2)) with
  | None => None
  | Some events =>
      match makechan alloc 8 (Dispatch.WorkerConcurrency c) with
      | None => None
      | Some pool =>
          match makeslice alloc 8 (Dispatch.WorkerConcurrency c) with
          | None => None
          | Some n => Some (events, pool, n)
          end
      end
  end.

End Startup.

(** ** The [env]-tag configuration of internal/config ([Load] returning a
    config and an error, [Validate], [GetBackoffDuration] as
    [base * 2^attempt]). *)
Module EnvConf.

Record Config : Type := mkConfig {
  SQSQueueURL : string;
  SQSWaitTime : Z;
  WorkerConcurrency : Z;
  MaxRetries : Z;
  BackoffBaseMs : Z;
  InventoryGRPCAddr : string;
  ReservationAPIBase : string;
  OtelExporterOTLPEndpoint : string;
  LogLevel : string;
  BackoffBaseDuration : Z
}.

(** [Config.Validate] *)
Definition Validate (c : Config) : result unit :=
  if String.eqb (SQSQueueURL c) "" then Err "SQS_QUEUE_URL is required"
  else if (SQSWaitTime c <=? 0) || (20 <? SQSWaitTime c) then
    Err "SQS_WAIT_TIME must be between 1 and 20 seconds"
  else if (WorkerConcurrency c <=? 0) || (1000 <? WorkerConcurrency c) then
    Err "WORKER_CONCURRENCY must be between 1 and 1000"
  else if (MaxRetries c <? 0) || (10 <? MaxRetries c) then
    Err "MAX_RETRIES must be between 0 and 10"
  else if (BackoffBaseMs c <? 100) || (10000 <? BackoffBaseMs c) then
    Err "BACKOFF_BASE_MS must be between 100 and 10000 ms"
  else if String.eqb (InventoryGRPCAddr c) "" then Err "INVENTORY_GRPC_ADDR is required"
  else if String.eqb (ReservationAPIBase c) "" then Err "RESERVATION_API_BASE is required"
  else if negb (String.eqb (LogLevel c) "debug") && negb (String.eqb (LogLevel c) "info")
          && negb (String.eqb (LogLevel c) "warn") && negb (String.eqb (LogLevel c) "error")
  then Err "LOG_LEVEL must be one of: debug, info, warn, error"
  else Ok tt.

(** [Load]: [parsed] is the outcome of [env.Parse(cfg)]; then
    [cfg.BackoffBaseDuration = time.Duration(cfg.BackoffBaseMs) * time.Millisecond]
    and [cfg.Validate()]. *)
Definition Load (parsed : result Config) : result Config :=
  match parsed with
  | Err m => Err (String.append "failed to parse config: " m)
  | Ok c0 =>
      let c := mkConfig (SQSQueueURL c0) (SQSWaitTime c0) (WorkerConcurrency c0)
                 (MaxRetries c0) (BackoffBaseMs c0) (InventoryGRPCAddr c0)
                 (ReservationAPIBase c0) (OtelExporterOTLPEndpoint c0) (LogLevel c0)
                 (wrap64 (BackoffBaseMs c0 * 1000000)) in
      match Validate c with
      | Err m => Err (String.append "config validation failed: " m)
      | Ok _ => Ok c
      end
  end.

(** [c.BackoffBaseDuration * time.Duration(1<<attempt)]: the shift is a
    64-bit [time.Duration] shift; a negative shift count panics ([None]). *)
Definition GetBackoffDuration (c : Config) (attempt : Z) : option Z :=
  if attempt <? 0 then None
  else Some (wrap64 (BackoffBaseDuration c * wrap64 (Z.shiftl 1 attempt))).

End EnvConf.

(** ** [retry.DoWithResult] and the backoff waits of a trace *)
Module Retry.
Import Dispatch.

(** [DoWithResult], with [done] and [fn] as for [Retryer_Do]; [fn] gets
    whether the context is done (it is not, when it is called). *)
Fixpoint DoWithResult_fuel {T : Type} (fuel : nat) (c : Config) (done : Z -> bool)
    (fn : bool -> Z -> result T) (attempt : Z) : list dstep * result T :=
  match fuel with
  | O => ([], Err "operation failed after attempts")
  | S f =>
      if Z.ltb attempt (MaxRetries c) then
        if done attempt then ([], Err "context canceled")
        else match fn false attempt with
             | Ok v => ([Attempt attempt []], Ok v)
             | Err _ =>
                 if Z.eqb attempt (MaxRetries c - 1) then
                   ([Attempt attempt []], Err "operation failed after attempts")
                 else if done (attempt + 1) then
                   ([Attempt attempt []], Err "context canceled")
                 else
                   let '(rest, r) := DoWithResult_fuel f c done fn (attempt + 1) in
                   (Attempt attempt [] :: Backoff (GetBackoffDuration c attempt) :: rest, r)
             end
      else ([], Err "operation failed after attempts")
  end.

Definition DoWithResult {T : Type} (c : Config) (done : Z -> bool)
    (fn : bool -> Z -> result T) : list dstep * result T :=
  DoWithResult_fuel (S (Z.to_nat (MaxRetries c))) c done fn 0.

(** The waits of a trace, in order. *)
Fixpoint backoffs (tr : list dstep) : list Z :=
  match tr with
  | [] => []
  | Backoff ns :: rest => ns :: backoffs rest
  | _ :: rest => backoffs rest
  end.

End Retry.

(** The receipt handles deleted in a trace, in order. *)
Fixpoint deleted (t : list effect) : list string :=
  match t with
  | [] => []
  | DeleteMessage r :: rest => r :: deleted rest
  | _ :: rest => deleted rest
  end.

(** [getMessageApproximateReceiveCount] on [message.Attributes]. *)
Definition getMessageApproximateReceiveCount (attributes : option (gmap string string)) : Z :=
  match attributes with
  | None => 0
  | Some attrs =>
      match attrs !! "ApproximateReceiveCount" with
      | Some countStr => match Conf.Atoi countStr with Some count => count | None => 0 end
      | None => 0
      end
  end.

(** ** Downstream clients *)
Module Clients.

(** An HTTP request: method, URL and JSON body. *)
Record http_request : Type := mkRequest {
  Method : string;
  URL : string;
  ReqBody : option (gmap string json)
}.

(** [resp.StatusCode] and the bytes of [resp.Body]. *)
Record http_response : Type := mkResponse {
  StatusCode : Z;
  RespBody : string
}.

(** [UpdateStatusRequest] of the reservation client (worker.go). *)
Record UpdateStatusRequest : Type := mkUpdateStatusRequest {
  usr_ReservationID : string;
  usr_Status : string;
  usr_OrderID : string
}.

Definition reservation_url (baseURL reservationID : string) : string :=
  String.append baseURL (String.append "/internal/reservations/" reservationID).

(** [payload := map[string]interface{}{"status": req.Status};
    if req.OrderID != "" { payload["order_id"] = req.OrderID }] *)
Definition status_payload (req : UpdateStatusRequest) : gmap string json :=
  let p : gmap string json := <["status" := JString (usr_Status req)]> ∅ in
  if String.eqb (usr_OrderID req) "" then p
  else <["order_id" := JString (usr_OrderID req)]> p.

(** [ReservationClient.UpdateReservationStatus] (worker.go): [valid_url]
    tells whether [http.NewRequestWithContext] accepts the URL; [do] is
    [c.httpClient.Do], [Err] for a transport error. Marshalling a map of
    strings cannot fail. *)
Definition UpdateReservationStatus (baseURL : string) (valid_url : string -> bool)
    (do : http_request -> result http_response) (req : UpdateStatusRequest) : result unit :=
  let url := reservation_url baseURL (usr_ReservationID req) in
  if negb (valid_url url) then Err "failed to create request"
  else match do (mkRequest "PATCH" url (Some (status_payload req))) with
       | Err m => Err (String.append "failed to execute request: " m)
       | Ok resp =>
           if (StatusCode resp <? 200) || (300 <=? StatusCode resp)
           then Err "unexpected status code"
           else Ok tt
       end.

(** [ReservationServiceClient.GetReservationStatus]
    (internal/client/reservation.go): [do] also covers reading the body;
    [unmarshal_object] is [json.Unmarshal] into a [map[string]interface{}]
    ([Some ∅] for a JSON [null]). *)
Definition GetReservationStatus (baseURL : string) (valid_url : string -> bool)
    (do : http_request -> result http_response)
    (unmarshal_object : string -> option (gmap string json))
    (reservationID : string) : result string :=
  let url := reservation_url baseURL reservationID in
  if negb (valid_url url) then Err "failed to create request"
  else match do (mkRequest "GET" url None) with
       | Err m => Err (String.append "failed to send request: " m)
       | Ok resp =>
           if (StatusCode resp <? 200) || (300 <=? StatusCode resp)
           then Err "reservation API returned an error status"
           else match unmarshal_object (RespBody resp) with
                | None => Err "failed to unmarshal response"
                | Some response =>
                    match response !! "status" with
                    | None => Err "status field not found in response"
                    | Some (JString s) => Ok s
                    | Some _ => Err "status field is not a string"
                    end
                end
       end.

(** [CommitReq] of internal/client/inventory.go. *)
Record CommitReq : Type := mkCommitReq {
  cr_ReservationId : string;
  cr_EventId : string;
  cr_Qty : Z;
  cr_SeatIds : list string;
  cr_PaymentIntentId : string
}.

(** [CommitRes]: order id and status. *)
Record CommitRes : Type := mkCommitRes {
  OrderId : string;
  CommitStatus : string
}.

(** [mockInventoryClient.ReleaseHold]: status ["OK"]. *)
Definition mock_ReleaseHold (eventId reservationId : string) (qty : Z) (seatIds : list string)
    : option (result string) :=
  Some (Ok "OK").

(** [mockInventoryClient.CommitReservation]:
    ["ord_" + req.ReservationId[4:]]; slicing a string shorter than four
    bytes panics ([None]). *)
Definition mock_CommitReservation (req : CommitReq) : option (result CommitRes) :=
  let id := cr_ReservationId req in
  if (String.length id <? 4)%nat then None
  else Some (Ok (mkCommitRes (String.append "ord_" (String.substring 4 (String.length id - 4) id))
                             "COMMITTED")).

(** [InventoryServiceClient.ReleaseHold] over a client whose call returns
    [Some (Ok status)], [Some (Err _)] or panics ([None]). *)
Definition InventoryServiceClient_ReleaseHold
    (client : string -> string -> Z -> list string -> option (result string))
    (eventID reservationID : string) (qty : Z) (seatIDs : list string)
    : option (result unit) :=
  match client eventID reservationID (wrap32 qty) seatIDs with
  | None => None
  | Some (Err m) => Some (Err "inventory release hold failed")
  | Some (Ok status) =>
      if String.eqb status "OK" then Some (Ok tt)
      else Some (Err "inventory release hold returned status")
  end.

(** [InventoryServiceClient.CommitReservation] *)
Definition InventoryServiceClient_CommitReservation
    (client : CommitReq -> option (result CommitRes))
    (reservationID eventID : string) (qty : Z) (seatIDs : list string)
    (paymentIntentID : string) : option (result unit) :=
  match client (mkCommitReq reservationID eventID (wrap32 qty) seatIDs paymentIntentID) with
  | None => None
  | Some (Err m) => Some (Err "inventory commit reservation failed")
  | Some (Ok resp) =>
      if String.eqb (CommitStatus resp) "COMMITTED" then Some (Ok tt)
      else Some (Err "inventory commit reservation returned status")
  end.

End Clients.

(** Concrete inputs: configurations, events, messages and service oracles. *)
Module Samples.

(** The default configuration of the [Load() *Config] variant. *)
Definition cfg_default : Dispatch.Config := Dispatch.mkConfig 20 20 5 1000.

(** First-generation event and message. *)
Definition payload_expired : gmap string json :=
  <["qty" := JNumber 2]> (<["seat_ids" := JArray [JString "A1"; JString "A2"]]> ∅).

Definition legacy_expired : Types.Event :=
  Types.mkEvent "evt-100" "reservation.expired" "rsv_1" "evt_1" 0 payload_expired "wire-trace".

Definition legacy_unmarshal (s : string) : option Types.Event :=
  if String.eqb s "body-1" then Some legacy_expired else None.

Definition legacy_msg : Legacy.Message :=
  Legacy.mkMessage (Some "m-1") (Some "body-1") (Some "rh-1").

Definition legacy_bad_msg : Legacy.Message :=
  Legacy.mkMessage (Some "m-2") (Some "{invalid json}") (Some "rh-2").

(** Second-generation event, detail and message. *)
Definition expired_detail : Handlers.ReservationExpiredDetail :=
  Handlers.mkExpiredDetail "rsv_1" "evt_1" 2 ["A1"; "A2"] "" "".

Definition dec : Handlers.decoders :=
  Handlers.mkDecoders
    (fun s => if String.eqb s "d-1" then Some expired_detail else None)
    (fun _ => None) (fun _ => None).

Definition expired_event : Handlers.Event :=
  Handlers.mkEvent "evt-100" "reservation.expired" "reservation-api" "d-1" 0 ""
    "" "" "" [].

Definition hold_expired_event : Handlers.Event :=
  Handlers.mkEvent "evt-101" "reservation.hold.expired" "reservation-api" "d-1" 0 ""
    "" "" "" [].

Definition unmarshal (s : string) : option Handlers.Event :=
  if String.eqb s "body-1" then Some expired_event else None.

Definition msg_ok : Poller.Message :=
  Poller.mkMessage (Some "m-1") (Some "body-1") (Some "rh-1") None.

Definition msg_bad : Poller.Message :=
  Poller.mkMessage (Some "m-2") (Some "{invalid json}") (Some "rh-2") None.

(** Downstream services that are down, and that are up. *)
Definition svc_down : bool -> Z -> effect -> bool := fun _ _ _ => false.
Definition svc_up : bool -> Z -> effect -> bool := fun _ _ _ => true.
(** Downstream calls fail once the context is done. *)
Definition svc_ctx : bool -> Z -> effect -> bool := fun done _ _ => negb done.

Definition no_approved : Dispatch.handler_fn := fun _ _ _ => ([], Err "unused").

(** A context cancelled during attempt 0. *)
Definition ctx_cancelled_after_0 : Z -> bool := fun k => Z.leb 1 k.

End Samples.

(** Concrete inputs of the code around the dispatcher. *)
Module MoreSamples.

(** An environment with a negative worker concurrency. *)
Definition env_negative_workers : Conf.env :=
  <["WORKER_CONCURRENCY" := "-5"]> (<["MAX_RETRIES" := "3"]> ∅).

(** The values of [GetEnvMap] as parsed by [env.Parse], and the config
    [Load] returns for them. *)
Definition envconf_sample : EnvConf.Config :=
  EnvConf.mkConfig "https://sqs.ap-northeast-2.amazonaws.com/123/queue" 20 20 5 1000
    "inventory-svc:8080" "http://reservation-api:8080" "http://otel-collector:4317" "info" 0.

Definition envconf_loaded : EnvConf.Config :=
  EnvConf.mkConfig "https://sqs.ap-northeast-2.amazonaws.com/123/queue" 20 20 5 1000
    "inventory-svc:8080" "http://reservation-api:8080" "http://otel-collector:4317" "info"
    1000000000.

(** Message attributes of a message received three times. *)
Definition attrs_three : gmap string string :=
  <["SentTimestamp" := "1700000000000"]> ∅.

(** A [payment.failed] event whose quantity does not fit in 32 bits. *)
Definition failed_detail : Handlers.PaymentFailedDetail :=
  Handlers.mkFailedDetail "rsv_3" "pay_3" 50000 "KRW" "card_declined" "declined" "evt_3"
    "" ["B1"] (2 ^ 32 + 2).

Definition dec_failed : Handlers.decoders :=
  Handlers.mkDecoders (fun _ => None) (fun _ => None)
    (fun s => if String.eqb s "d-3" then Some failed_detail else None).

Definition failed_event : Handlers.Event :=
  Handlers.mkEvent "evt-300" "payment.failed" "payment-api" "d-3" 0 "" "" "" "" [].

(** An event of the declared type [reservation.hold.created]. *)
Definition hold_created_event : Handlers.Event :=
  Handlers.mkEvent "evt-102" "reservation.hold.created" "reservation-api" "d-1" 0 ""
    "" "" "" [].

Definition approved_detail : Handlers.PaymentApprovedDetail :=
  Handlers.mkApprovedDetail "rsv_2" "pay_a" 120000 "KRW" "evt_2" "" ["A1"] 1.

Definition dec_approved : Handlers.decoders :=
  Handlers.mkDecoders (fun _ => None)
    (fun s => if String.eqb s "d-2" then Some approved_detail else None) (fun _ => None).

Definition approved_event : Handlers.Event :=
  Handlers.mkEvent "evt-200" "payment.approved" "payment-api" "d-2" 0 "" "" "" "" [].

End MoreSamples.

(** * Properties *)

Module DispatchFacts.
Import Handlers Dispatch.

(** The fuel of [HandleEvent] never runs out: it unfolds like the
    recursive Go function. *)
Lemma HandleEvent_unfold d ctx ev a :
  HandleEvent d ctx ev a =
  match route d (Type_ ev) with
  | None => ([Outcome "invalid_payload"], Err "unknown event type")
  | Some h =>
      let '(calls, r) := h ev (ctx a) a in
      match r with
      | Ok _ => ([Attempt a calls; Outcome "success"], Ok tt)
      | Err m =>
          if Z.leb (MaxRetries (config d)) a then
            ([Attempt a calls; Outcome "failed"], Err m)
          else
            let '(rest, r') := HandleEvent d ctx ev (a + 1) in
            (Attempt a calls :: Outcome "retried"
               :: Backoff (GetBackoffDuration (config d) a) :: rest, r')
      end
  end.
Proof.
  unfold HandleEvent.
  destruct (Z.leb_spec (MaxRetries (config d)) a) as [Hle | Hlt].
  - replace (Z.to_nat (MaxRetries (config d) - a)) with O by lia.
    simpl. destruct (route d (Type_ ev)) as [h|]; [|reflexivity].
    destruct (h ev (ctx a) a) as [calls [u|m]]; [reflexivity|].
    apply Z.leb_le in Hle. rewrite Hle. reflexivity.
  - replace (Z.to_nat (MaxRetries (config d) - a))
      with (S (Z.to_nat (MaxRetries (config d) - (a + 1)))) by lia.
    simpl. destruct (route d (Type_ ev)) as [h|]; [|reflexivity].
    destruct (h ev (ctx a) a) as [calls [u|m]]; [reflexivity|].
    assert (Hf : Z.leb (MaxRetries (config d)) a = false) by (apply Z.leb_gt; lia).
    rewrite Hf. reflexivity.
Qed.

Lemma HandleEvent_attempts_le d ctx ev (n : nat) a :
  Z.to_nat (MaxRetries (config d) - a) = n ->
  (attempts (fst (HandleEvent d ctx ev a)) <= S n)%nat.
Proof.
  revert a. induction n as [|n IH]; intros a Hn;
    rewrite HandleEvent_unfold;
    destruct (route d (Type_ ev)) as [h|]; [|simpl; lia| |simpl; lia];
    destruct (h ev (ctx a) a) as [calls [u|m]]; [simpl; lia| |simpl; lia|];
    destruct (Z.leb_spec (MaxRetries (config d)) a); simpl; try lia.
  specialize (IH (a + 1) ltac:(lia)).
  destruct (HandleEvent d ctx ev (a + 1)) as [rest r'] eqn:E.
  simpl in *. lia.
Qed.

Lemma HandleEvent_attempt_range d ctx ev (n : nat) a :
  Z.to_nat (MaxRetries (config d) - a) = n ->
  forall k calls, In (Attempt k calls) (fst (HandleEvent d ctx ev a)) ->
  a <= k /\ k <= Z.max a (MaxRetries (config d)).
Proof.
  revert a. induction n as [|n IH]; intros a Hn k c Hin;
    rewrite HandleEvent_unfold in Hin;
    destruct (route d (Type_ ev)) as [h|];
    [ | simpl in Hin; intuition discriminate
      | | simpl in Hin; intuition discriminate ];
    destruct (h ev (ctx a) a) as [calls [u|m]];
    (destruct (Z.leb_spec (MaxRetries (config d)) a) as [Hle|Hgt]);
    simpl in Hin; try lia;
    try (destruct Hin as [Hin|[Hin|[]]]; [injection Hin; intros; subst; lia|discriminate]).
  destruct (HandleEvent d ctx ev (a + 1)) as [rest r'] eqn:E. simpl in Hin.
  destruct Hin as [Hin|[Hin|[Hin|Hin]]]; try discriminate.
  - injection Hin; intros; subst; lia.
  - specialize (IH (a + 1) ltac:(lia) k c). rewrite E in IH.
    specialize (IH Hin). lia.
Qed.

End DispatchFacts.

Module C3.
Import Handlers Dispatch DispatchFacts.

(** C3. [Dispatcher.HandleEvent], started at any attempt index
    [a >= 0] with [MaxRetries >= 0], invokes a handler at most
    [MaxRetries + 1] times; no attempt has an index above
    [max(a, MaxRetries)]; and an attempt [k >= MaxRetries] that ends in
    error is terminal: [HandleEvent] records the outcome ("failed", the
    label the code uses) and returns the handler's error without retrying. *)
Theorem HandleEvent_at_most_max_retries_plus_one (d : Dispatcher) (ctx : Z -> bool)
    (ev : Event) (a : Z) :
  0 <= a -> 0 <= MaxRetries (config d) ->
  (attempts (fst (HandleEvent d ctx ev a)) <= Z.to_nat (MaxRetries (config d)) + 1)%nat /\
  (forall k calls, In (Attempt k calls) (fst (HandleEvent d ctx ev a)) ->
     k <= Z.max a (MaxRetries (config d))) /\
  (forall h k calls m,
     route d (Type_ ev) = Some h -> h ev (ctx k) k = (calls, Err m) ->
     MaxRetries (config d) <= k ->
     HandleEvent d ctx ev k = ([Attempt k calls; Outcome "failed"], Err m)).
Proof.
  intros Ha HM. split; [|split].
  - pose proof (HandleEvent_attempts_le d ctx ev _ a eq_refl). lia.
  - intros k calls Hin.
    exact (proj2 (HandleEvent_attempt_range d ctx ev _ a eq_refl k calls Hin)).
  - intros h k calls m Hr Hh Hk. rewrite HandleEvent_unfold, Hr, Hh.
    apply Z.leb_le in Hk. rewrite Hk. reflexivity.
Qed.

(** With the downstream services down, the default configuration
    ([MaxRetries = 5]) runs exactly 6 attempts from attempt 0. *)
Lemma HandleEvent_at_most_max_retries_plus_one_witness :
  (attempts (fst (HandleEvent (Wiring.NewDispatcher Samples.cfg_default Samples.dec
                                 Samples.svc_down Samples.no_approved)
                    (fun _ => false) Samples.expired_event 0)) = 6%nat) /\
  ((attempts (fst (HandleEvent (Wiring.NewDispatcher Samples.cfg_default Samples.dec
                                  Samples.svc_down Samples.no_approved)
                     (fun _ => false) Samples.expired_event 0))
      <= Z.to_nat 5 + 1)%nat /\
   (forall k calls,
      In (Attempt k calls)
        (fst (HandleEvent (Wiring.NewDispatcher Samples.cfg_default Samples.dec
                             Samples.svc_down Samples.no_approved)
                (fun _ => false) Samples.expired_event 0)) -> k <= Z.max 0 5) /\
   (forall h k calls m,
      route (Wiring.NewDispatcher Samples.cfg_default Samples.dec
               Samples.svc_down Samples.no_approved) (Type_ Samples.expired_event) = Some h ->
      h Samples.expired_event ((fun _ => false) k) k = (calls, Err m) -> 5 <= k ->
      HandleEvent (Wiring.NewDispatcher Samples.cfg_default Samples.dec
                     Samples.svc_down Samples.no_approved)
        (fun _ => false) Samples.expired_event k
      = ([Attempt k calls; Outcome "failed"], Err m))).
Proof.
  split; [vm_compute; reflexivity|].
  exact (HandleEvent_at_most_max_retries_plus_one
           (Wiring.NewDispatcher Samples.cfg_default Samples.dec
              Samples.svc_down Samples.no_approved)
           (fun _ => false) Samples.expired_event 0
           ltac:(lia) ltac:(vm_compute; discriminate)).
Defined.

End C3.

Module C5.
Import Handlers Dispatch.

(** C5. The dispatcher routes [reservation.expired] and the legacy
    [reservation.hold.expired] to [ExpiredHandler.Handle]. For such an
    event whose detail decodes to [d], a successful run makes exactly the
    downstream calls [ReleaseHold(event_id, reservation_id, qty, seat_ids)]
    and then [UpdateStatus(reservation_id, EXPIRED)]; when [ReleaseHold]
    fails the handler returns its error without calling [UpdateStatus]. *)
Theorem ExpiredHandler_release_then_expire (cfg : Config) (dec : decoders)
    (svc : bool -> Z -> effect -> bool) (approved : handler_fn)
    (ev : Event) (d : ReservationExpiredDetail) :
  (Type_ ev = EventTypeReservationExpired \/ Type_ ev = EventTypeReservationHoldExpired) ->
  decode_expired dec (Detail ev) = Some d ->
  forall (done : bool) (k : Z),
  (exists h, route (Wiring.NewDispatcher cfg dec svc approved) (Type_ ev) = Some h /\
             h ev done k = ExpiredHandler_Handle dec (svc done k) ev) /\
  (snd (ExpiredHandler_Handle dec (svc done k) ev) = Ok tt ->
   fst (ExpiredHandler_Handle dec (svc done k) ev) =
     [ReleaseHold (ed_EventID d) (ed_ReservationID d) (ed_Quantity d) (ed_SeatIDs d);
      UpdateStatus (ed_ReservationID d) StatusExpired]) /\
  (svc done k (ReleaseHold (ed_EventID d) (ed_ReservationID d) (ed_Quantity d) (ed_SeatIDs d))
     = false ->
   ExpiredHandler_Handle dec (svc done k) ev =
     ([ReleaseHold (ed_EventID d) (ed_ReservationID d) (ed_Quantity d) (ed_SeatIDs d)],
      Err "failed to release hold")).
Proof.
  intros Ht Hd done k.
  assert (Hp : ParseEventDetail dec ev = Ok (DExpired d)).
  { unfold ParseEventDetail.
    destruct Ht as [Ht|Ht]; rewrite Ht; simpl; rewrite Hd; reflexivity. }
  split; [|split].
  - exists (fun ev done k => ExpiredHandler_Handle dec (svc done k) ev). split; [|reflexivity].
    unfold route. destruct Ht as [Ht|Ht]; rewrite Ht; reflexivity.
  - unfold ExpiredHandler_Handle. rewrite Hp. unfold call. simpl.
    destruct (svc done k (ReleaseHold _ _ _ _)); simpl; [|discriminate].
    destruct (svc done k (UpdateStatus _ _)); simpl; [reflexivity|discriminate].
  - intros Hf. unfold ExpiredHandler_Handle. rewrite Hp. unfold call. rewrite Hf. reflexivity.
Qed.

(** On the legacy type, with both services up: the two calls, in order. *)
Lemma ExpiredHandler_release_then_expire_witness :
  (Type_ Samples.hold_expired_event = EventTypeReservationExpired \/
   Type_ Samples.hold_expired_event = EventTypeReservationHoldExpired) /\
  decode_expired Samples.dec (Detail Samples.hold_expired_event) = Some Samples.expired_detail /\
  fst (ExpiredHandler_Handle Samples.dec (Samples.svc_up false 0) Samples.hold_expired_event) =
    [ReleaseHold "evt_1" "rsv_1" 2 ["A1"; "A2"]; UpdateStatus "rsv_1" StatusExpired] /\
  ((exists h, route (Wiring.NewDispatcher Samples.cfg_default Samples.dec Samples.svc_up
                       Samples.no_approved) (Type_ Samples.hold_expired_event) = Some h /\
              h Samples.hold_expired_event false 0
              = ExpiredHandler_Handle Samples.dec (Samples.svc_up false 0)
                  Samples.hold_expired_event) /\
   (snd (ExpiredHandler_Handle Samples.dec (Samples.svc_up false 0) Samples.hold_expired_event)
      = Ok tt ->
    fst (ExpiredHandler_Handle Samples.dec (Samples.svc_up false 0) Samples.hold_expired_event) =
      [ReleaseHold (ed_EventID Samples.expired_detail) (ed_ReservationID Samples.expired_detail)
         (ed_Quantity Samples.expired_detail) (ed_SeatIDs Samples.expired_detail);
       UpdateStatus (ed_ReservationID Samples.expired_detail) StatusExpired]) /\
   (Samples.svc_up false 0
      (ReleaseHold (ed_EventID Samples.expired_detail) (ed_ReservationID Samples.expired_detail)
         (ed_Quantity Samples.expired_detail) (ed_SeatIDs Samples.expired_detail)) = false ->
    ExpiredHandler_Handle Samples.dec (Samples.svc_up false 0) Samples.hold_expired_event =
      ([ReleaseHold (ed_EventID Samples.expired_detail) (ed_ReservationID Samples.expired_detail)
          (ed_Quantity Samples.expired_detail) (ed_SeatIDs Samples.expired_detail)],
       Err "failed to release hold"))).
Proof.
  split; [right; reflexivity|].
  split; [reflexivity|].
  split; [vm_compute; reflexivity|].
  exact (ExpiredHandler_release_then_expire Samples.cfg_default Samples.dec Samples.svc_up
           Samples.no_approved Samples.hold_expired_event Samples.expired_detail
           (or_intror eq_refl) eq_refl false 0).
Defined.

End C5.

Module C7.
Import Dispatch.

Lemma wrap64_small (x : Z) : 0 <= x < 2 ^ 63 -> wrap64 x = x.
Proof.
  intros Hx. unfold wrap64, wrap.
  rewrite Z.mod_small by (simpl in *; lia).
  destruct (Z.leb_spec (2 ^ (64 - 1)) x); simpl in *; lia.
Qed.

Lemma multiplier_loop_min (k : Z) :
  0 <= k -> multiplier_loop 4 0 k 1 = 2 ^ Z.min k 4.
Proof.
  intros Hk.
  assert (Hc : k = 0 \/ k = 1 \/ k = 2 \/ k = 3 \/ 4 <= k) by lia.
  destruct Hc as [->|[->|[->|[->|H4]]]]; try reflexivity.
  rewrite Z.min_r by lia. simpl.
  repeat match goal with
         | |- context [Z.ltb ?i k] =>
             let E := fresh in assert (E : Z.ltb i k = true) by (apply Z.ltb_lt; lia);
             rewrite E
         end.
  reflexivity.
Qed.

(** C7 (as amended). The delay [HandleEvent] sleeps before attempt
    [k + 1] is [BackoffBaseMS * 2^min(k, 4)] milliseconds: it doubles for
    [k < 4] and stays at [16 * BackoffBaseMS] from then on; it is a
    deterministic function of [k] and the base (for a base within the
    specified range, where no integer overflow occurs). *)
Theorem GetBackoffDuration_doubles_then_caps (c : Config) (k : Z) :
  0 <= k -> 0 <= BackoffBaseMS c <= 10000 ->
  GetBackoffDuration c k = BackoffBaseMS c * 2 ^ Z.min k 4 * 1000000.
Proof.
  intros Hk Hb. unfold GetBackoffDuration.
  rewrite multiplier_loop_min by exact Hk.
  assert (Hp : 1 <= 2 ^ Z.min k 4 <= 16).
  { split.
    - assert (0 < 2 ^ Z.min k 4) by (apply Z.pow_pos_nonneg; lia). lia.
    - change 16 with (2 ^ 4). apply Z.pow_le_mono_r; lia. }
  rewrite (wrap64_small (BackoffBaseMS c * 2 ^ Z.min k 4)) by (simpl; nia).
  apply wrap64_small. simpl. nia.
Qed.

Lemma GetBackoffDuration_doubles_then_caps_witness :
  (0 <= 5 /\ 0 <= BackoffBaseMS Samples.cfg_default <= 10000) /\
  GetBackoffDuration Samples.cfg_default 5
    = BackoffBaseMS Samples.cfg_default * 2 ^ Z.min 5 4 * 1000000.
Proof.
  split; [simpl; lia|].
  apply GetBackoffDuration_doubles_then_caps; simpl; lia.
Defined.

(** C7 refuted: with the default base (1000 ms) the delay before attempt
    6 is 16 s, not [1000 ms * 2^5 = 32 s]; no ceiling of a minute or more
    makes [min(base * 2^k, ceiling)] match the code. *)
Lemma GetBackoffDuration_not_pure_doubling :
  GetBackoffDuration Samples.cfg_default 5 = 16000000000 /\
  ~ (exists ceiling, 60000000000 <= ceiling /\
       forall k, 0 <= k ->
         GetBackoffDuration Samples.cfg_default k
         = Z.min (BackoffBaseMS Samples.cfg_default * 2 ^ k * 1000000) ceiling).
Proof.
  assert (E5 : GetBackoffDuration Samples.cfg_default 5 = 16000000000)
    by (vm_compute; reflexivity).
  split; [exact E5|].
  intros [ceiling [Hc H]]. specialize (H 5 ltac:(lia)).
  rewrite E5 in H.
  assert (E : BackoffBaseMS Samples.cfg_default * 2 ^ 5 * 1000000 = 32000000000)
    by reflexivity.
  rewrite E in H. lia.
Qed.

End C7.

Module C10.
Import Types.

(** C10. The three payload extractors of [types.Event] never return an
    error; a field that is missing or has another JSON type gives the zero
    value: quantity 0, no seat ids, empty payment intent id, amount 0. *)
Theorem payload_extractors_never_fail (e : Event) :
  (exists p, GetReservationExpiredPayload e = Ok p /\
     (is_number (Payload e !! "qty") = false -> Quantity p = 0) /\
     (is_array (Payload e !! "seat_ids") = false -> SeatIDs p = [])) /\
  (exists p, GetPaymentApprovedPayload e = Ok p /\
     (is_string (Payload e !! "payment_intent_id") = false -> ap_PaymentIntentID p = "") /\
     (is_number (Payload e !! "amount") = false -> ap_Amount p = 0)) /\
  (exists p, GetPaymentFailedPayload e = Ok p /\
     (is_string (Payload e !! "payment_intent_id") = false -> fp_PaymentIntentID p = "") /\
     (is_number (Payload e !! "amount") = false -> fp_Amount p = 0)).
Proof.
  unfold GetReservationExpiredPayload, GetPaymentApprovedPayload, GetPaymentFailedPayload.
  split; [|split]; eexists; (split; [reflexivity|]); simpl;
    split; intros H;
    repeat match goal with
           | H : context [Payload e !! ?k] |- _ =>
               destruct (Payload e !! k) as [[]|]; simpl in *; congruence
           end.
Qed.

(** An all-zero payload: the empty payload map yields quantity 0 and no
    seats, and the handler goes on with them. *)
Example expired_payload_of_empty_map :
  GetReservationExpiredPayload (mkEvent "e" EventTypeReservationExpired "r" "v" 0 ∅ "")
  = Ok (mkExpiredPayload 0 []).
Proof. reflexivity. Qed.

End C10.

Module C9.
Import Types Legacy.

Lemma Handle_no_delete (svc : effect -> bool) (ev : Event) (r : string) :
  ~ In (DeleteMessage r) (fst (Handle svc ev)).
Proof.
  unfold Handle, handleReservationExpired, handlePaymentApproved, handlePaymentFailed,
    GetReservationExpiredPayload, GetPaymentApprovedPayload, GetPaymentFailedPayload, call.
  repeat (case_match; simpl); intuition discriminate.
Qed.

Lemma retry_deletes_trace_id svc next ev (n : nat) a r :
  In (DeleteMessage r) (fst (retry svc next ev n a)) -> r = TraceID ev.
Proof.
  revert a. induction n as [|n IH]; intros a Hin; simpl in Hin; [contradiction|].
  unfold operation in Hin.
  destruct (Handle svc ev) as [t res] eqn:Eh.
  pose proof (Handle_no_delete svc ev r) as Hnd. rewrite Eh in Hnd. simpl in Hnd.
  destruct (is_ok res); simpl in Hin.
  - destruct Hin as [Hin|Hin]; [discriminate|].
    apply in_app_or in Hin. destruct Hin as [Hin|[Hin|[]]]; [contradiction|congruence].
  - destruct (next (a + 1)) as [dl|]; simpl in Hin.
    + destruct (retry svc next ev n (a + 1)) as [t' ok'] eqn:Er. simpl in Hin.
      destruct Hin as [Hin|Hin]; [discriminate|].
      apply in_app_or in Hin. destruct Hin as [Hin|Hin]; [contradiction|].
      destruct Hin as [Hin|Hin]; [discriminate|].
      specialize (IH (a + 1)). rewrite Er in IH. exact (IH Hin).
    + destruct Hin as [Hin|Hin]; [discriminate|contradiction].
Qed.

(** C9. When [Worker.parseEvent] accepts a message, the event is the
    decoded body with [TraceID] replaced by the message's receipt handle
    (the body's [trace_id] is overwritten), and every queue delete issued
    by [processEventWithRetry] for it uses exactly that receipt handle. *)
Theorem parseEvent_trace_id_is_receipt (unmarshal : string -> option Event)
    (msg : Message) (ev : Event) :
  parseEvent unmarshal msg = Some (Ok ev) ->
  exists body ev0 rh,
    Body msg = Some body /\ unmarshal body = Some ev0 /\ ReceiptHandle msg = Some rh /\
    ev = set_trace_id ev0 rh /\ TraceID ev = rh /\
    forall svc next n r,
      In (DeleteMessage r) (fst (processEventWithRetry svc next ev n)) -> r = rh.
Proof.
  unfold parseEvent. intros H.
  destruct (Body msg) as [body|] eqn:Eb; [|discriminate].
  destruct (unmarshal body) as [ev0|] eqn:Eu; [|discriminate].
  destruct (String.eqb (ID ev0) ""); [discriminate|].
  destruct (String.eqb (ReservationID ev0) ""); [discriminate|].
  destruct (String.eqb (Type_ ev0) ""); [discriminate|].
  destruct (ReceiptHandle msg) as [rh|] eqn:Er; [|discriminate].
  injection H as <-.
  exists body, ev0, rh. repeat split; try reflexivity; try assumption.
  intros svc next n r Hin. exact (retry_deletes_trace_id svc next _ n 0 r Hin).
Qed.

Lemma parseEvent_trace_id_is_receipt_witness :
  parseEvent Samples.legacy_unmarshal Samples.legacy_msg
    = Some (Ok (set_trace_id Samples.legacy_expired "rh-1")) /\
  TraceID Samples.legacy_expired = "wire-trace" /\
  exists body ev0 rh,
    Body Samples.legacy_msg = Some body /\ Samples.legacy_unmarshal body = Some ev0 /\
    ReceiptHandle Samples.legacy_msg = Some rh /\
    set_trace_id Samples.legacy_expired "rh-1" = set_trace_id ev0 rh /\
    TraceID (set_trace_id Samples.legacy_expired "rh-1") = rh /\
    forall svc next n r,
      In (DeleteMessage r)
        (fst (processEventWithRetry svc next (set_trace_id Samples.legacy_expired "rh-1") n)) ->
      r = rh.
Proof.
  assert (Hp : parseEvent Samples.legacy_unmarshal Samples.legacy_msg
               = Some (Ok (set_trace_id Samples.legacy_expired "rh-1")))
    by reflexivity.
  split; [exact Hp|]. split; [reflexivity|].
  exact (parseEvent_trace_id_is_receipt Samples.legacy_unmarshal Samples.legacy_msg _ Hp).
Defined.

End C9.

Module C8.
Import Legacy.

Definition pool_inv (n : Z) (p : Pool) : Prop :=
  length (workers p) = Z.to_nat n /\ chanCap p = n * 2 /\
  Z.of_nat (length (jobChan p)) <= chanCap p.

Lemma step_pool_inv n p p' : pool_inv n p -> step p p' -> pool_inv n p'.
Proof.
  intros (Hw & Hc & Hl) Hs. inversion Hs as [q ev Hroom|q Hfull|q i ev rest Hi Hq|q i ev Hi];
    subst; unfold pool_inv; simpl.
  - rewrite length_app. simpl. lia.
  - lia.
  - rewrite length_insert. rewrite Hq in Hl. simpl in Hl. lia.
  - rewrite length_insert. lia.
Qed.

Lemma rtc_pool_inv n p p' : pool_inv n p -> rtc step p p' -> pool_inv n p'.
Proof.
  intros Hi Hr. induction Hr as [p|p q r Hs Hr IH]; [exact Hi|].
  apply IH. exact (step_pool_inv n p q Hi Hs).
Qed.

(** C8. [NewWorker] followed by [Start] creates exactly [N] worker slots
    and a job channel of capacity [2 * N]; in every state reachable by
    sends, drops, takes and completions, at most [N] events are being
    handled, the channel holds at most [2 * N] events and there are still
    [N] workers. *)
Theorem pool_in_flight_bounded (n : Z) (p0 : Pool) :
  NewWorker n = Some p0 ->
  length (workers (Start n p0)) = Z.to_nat n /\ chanCap (Start n p0) = n * 2 /\
  forall p, rtc step (Start n p0) p ->
    (in_flight p <= Z.to_nat n)%nat /\ Z.of_nat (length (jobChan p)) <= n * 2 /\
    length (workers p) = Z.to_nat n.
Proof.
  unfold NewWorker. intros H.
  destruct (Z.ltb_spec (n * 2) 0) as [Hneg|Hpos]; [discriminate|].
  injection H as <-.
  assert (H0 : pool_inv n (Start n (mkPool [] (n * 2) []))).
  { unfold pool_inv, Start. simpl. rewrite length_replicate. lia. }
  destruct H0 as (Hw & Hc & Hl).
  split; [exact Hw|]. split; [exact Hc|].
  intros p Hr.
  destruct (rtc_pool_inv n _ p (conj Hw (conj Hc Hl)) Hr) as (Hw' & Hc' & Hl').
  split; [|split; [lia|exact Hw']].
  unfold in_flight. rewrite <- Hw'. apply length_filter.
Qed.

Lemma pool_in_flight_bounded_witness :
  NewWorker 2 = Some (mkPool [] 4 []) /\
  length (workers (Start 2 (mkPool [] 4 []))) = Z.to_nat 2 /\
  chanCap (Start 2 (mkPool [] 4 [])) = 2 * 2 /\
  forall p, rtc step (Start 2 (mkPool [] 4 [])) p ->
    (in_flight p <= Z.to_nat 2)%nat /\ Z.of_nat (length (jobChan p)) <= 2 * 2 /\
    length (workers p) = Z.to_nat 2.
Proof.
  split; [reflexivity|].
  exact (pool_in_flight_bounded 2 (mkPool [] 4 []) eq_refl).
Defined.

End C8.

Module C6.
Import Handlers Dispatch.

(** C6. The dispatcher of main.go routes [payment.approved] to
    [ApprovedHandler.Handle]. For such an event whose detail decodes to
    [d], the handler's first downstream call is
    [UpdateStatus(reservation_id, CONFIRMED)]; a [CommitReservation] is
    only ever made for the detail's [event_id] and [reservation_id] when
    [event_id] is non-empty and [seat_ids] is non-empty; and once the
    status update has succeeded, the commit is performed if and only if
    both hold (otherwise it is skipped). *)
Theorem ApprovedHandler_confirm_then_conditional_commit (cfg : Config) (dec : decoders)
    (svc : bool -> Z -> effect -> bool) (ev : Event) (d : PaymentApprovedDetail) :
  Type_ ev = EventTypePaymentApproved ->
  decode_approved dec (Detail ev) = Some d ->
  forall (done : bool) (k : Z),
  (exists h, route (Wiring.NewDispatcher_main cfg dec svc) (Type_ ev) = Some h /\
             h ev done k = ApprovedHandler_Handle dec (svc done k) ev) /\
  (exists rest, fst (ApprovedHandler_Handle dec (svc done k) ev)
                = UpdateStatus (ad_ReservationID d) StatusConfirmed :: rest) /\
  (forall e r, In (CommitReservation e r) (fst (ApprovedHandler_Handle dec (svc done k) ev)) ->
     e = ad_EventID d /\ r = ad_ReservationID d /\ ad_EventID d <> "" /\ ad_SeatIDs d <> []) /\
  (svc done k (UpdateStatus (ad_ReservationID d) StatusConfirmed) = true ->
   (In (CommitReservation (ad_EventID d) (ad_ReservationID d))
       (fst (ApprovedHandler_Handle dec (svc done k) ev))
    <-> ad_EventID d <> "" /\ ad_SeatIDs d <> [])).
Proof.
  intros Ht Hd done k.
  assert (Hp : ParseEventDetail dec ev = Ok (DApproved d)).
  { unfold ParseEventDetail. rewrite Ht. simpl. rewrite Hd. reflexivity. }
  split.
  { exists (fun ev done k => ApprovedHandler_Handle dec (svc done k) ev). split; [|reflexivity].
    unfold route. rewrite Ht. reflexivity. }
  unfold ApprovedHandler_Handle. rewrite Hp. unfold call.
  destruct (svc done k (UpdateStatus (ad_ReservationID d) StatusConfirmed)) eqn:Eu;
    [|split; [eexists; reflexivity|];
      split; [intros e r [H|[]]; discriminate | intros; discriminate]].
  destruct (String.eqb_spec (ad_EventID d) "") as [He|He];
    destruct (ad_SeatIDs d) as [|s0 ss] eqn:Es; simpl.
  - split; [eexists; reflexivity|].
    split; [intros e r [H|[]]; discriminate|].
    intros _. split; [intros [H|[]]; discriminate | intros [H1 H2]; contradiction].
  - split; [eexists; reflexivity|].
    split; [intros e r [H|[]]; discriminate|].
    intros _. split; [intros [H|[]]; discriminate | intros [H1 H2]; contradiction].
  - split; [eexists; reflexivity|].
    split; [intros e r [H|[]]; discriminate|].
    intros _. split; [intros [H|[]]; discriminate | intros [H1 H2]; contradiction].
  - assert (Hs : s0 :: ss <> []) by discriminate.
    destruct (svc done k (CommitReservation (ad_EventID d) (ad_ReservationID d))); simpl.
    + split; [eexists; reflexivity|].
      split.
      * intros e r [H|[H|[]]]; [discriminate|]. injection H as <- <-. tauto.
      * intros _. split; [tauto | intros _; right; left; reflexivity].
    + split; [eexists; reflexivity|].
      split.
      * intros e r [H|[H|[]]]; [discriminate|]. injection H as <- <-. tauto.
      * intros _. split; [tauto | intros _; right; left; reflexivity].
Qed.

(** With both services up, an approved event with [event_id] ["evt_2"]
    and seats [["A1"]] is confirmed and then committed. *)
Lemma ApprovedHandler_confirm_then_conditional_commit_witness :
  ApprovedHandler_Handle MoreSamples.dec_approved (Samples.svc_up false 0)
      MoreSamples.approved_event
    = ([UpdateStatus "rsv_2" StatusConfirmed; CommitReservation "evt_2" "rsv_2"], Ok tt) /\
  In (CommitReservation "evt_2" "rsv_2")
     (fst (ApprovedHandler_Handle MoreSamples.dec_approved (Samples.svc_up false 0)
             MoreSamples.approved_event)).
Proof.
  split; [vm_compute; reflexivity|].
  destruct (ApprovedHandler_confirm_then_conditional_commit Samples.cfg_default
              MoreSamples.dec_approved Samples.svc_up MoreSamples.approved_event
              MoreSamples.approved_detail eq_refl eq_refl false 0)
    as [_ [_ [_ Hc]]].
  apply (Hc eq_refl). split; discriminate.
Defined.

End C6.

Module PollerFacts.
Import Handlers Poller.

(** Whatever happens to it afterwards, a message that [processMessage]
    hands to the pool is deleted by [pollOnce] right after the send. *)
Lemma pollOnce_deletes_every_sent_message unmarshal send (m : Message) (e : Event) rh :
  processMessage unmarshal send m = Ok e -> ReceiptHandle m = Some rh ->
  pollOnce_loop unmarshal send [m] = ([SendToPool (ID e); DeleteMessage rh], [e]).
Proof.
  intros Hp Hr. simpl. rewrite Hp. unfold delete_effect. rewrite Hr. reflexivity.
Qed.

(** A message [processMessage] refuses is never deleted by [pollOnce]. *)
Lemma pollOnce_keeps_refused_message unmarshal send (m : Message) msg :
  processMessage unmarshal send m = Err msg ->
  pollOnce_loop unmarshal send [m] = ([], []).
Proof. intros Hp. simpl. rewrite Hp. reflexivity. Qed.

End PollerFacts.

Module C1.
Import Handlers Dispatch Poller.

(** C1 fails on the poller that main.go runs: [pollOnce] deletes the
    message ["rh-1"] as soon as its event is in the pool channel, before
    any handler ran; the dispatcher then exhausts its retries on the
    event (six failed attempts, the services being down) and returns an
    error, yet the message is already gone. *)
Lemma pollOnce_deletes_before_dispatch_succeeds :
  pollOnce Samples.unmarshal (fun _ => Sent) (Ok [Samples.msg_ok])
    = Ok ([SendToPool "evt-100"; DeleteMessage "rh-1"], [Samples.expired_event]) /\
  attempts (fst (HandleEvent (Wiring.NewDispatcher Samples.cfg_default Samples.dec
                                Samples.svc_down Samples.no_approved)
                   (fun _ => false) Samples.expired_event 0)) = 6%nat /\
  snd (HandleEvent (Wiring.NewDispatcher Samples.cfg_default Samples.dec
                      Samples.svc_down Samples.no_approved)
         (fun _ => false) Samples.expired_event 0) = Err "failed to release hold".
Proof. split; [|split]; vm_compute; reflexivity. Qed.

End C1.

Module C2.
Import Poller.

(** C2 fails on the poller that main.go runs: a message whose body is
    not JSON is refused by [processMessage] and [pollOnce] does not delete
    it, while the first-generation [receiveAndProcessMessages] deletes the
    same message once. *)
Lemma malformed_message_not_deleted :
  pollOnce Samples.unmarshal (fun _ => Sent) (Ok [Samples.msg_bad]) = Ok ([], []) /\
  Legacy.receiveAndProcessMessages Samples.legacy_unmarshal (fun _ => Legacy.SelectSend) 0
    [Samples.legacy_bad_msg]
    = ([DeleteMessage "rh-2"], [], Legacy.Finished).
Proof. split; vm_compute; reflexivity. Qed.

End C2.

Module C4.
Import Handlers Dispatch.

(** C4 fails on [Dispatcher.HandleEvent]: with the context cancelled
    during attempt 0 (so that every downstream call fails), [HandleEvent]
    still sleeps the full backoff (1 s, ..., 16 s) and starts attempts 1
    to 5 with the context done, six attempts in all. [Retryer.Do], on the
    same context, stops after attempt 0. *)
Lemma HandleEvent_ignores_cancellation :
  Samples.ctx_cancelled_after_0 1 = true /\
  attempts (fst (HandleEvent (Wiring.NewDispatcher Samples.cfg_default Samples.dec
                                Samples.svc_down Samples.no_approved)
                   Samples.ctx_cancelled_after_0 Samples.expired_event 0)) = 6%nat /\
  In (Attempt 1 [ReleaseHold "evt_1" "rsv_1" 2 ["A1"; "A2"]])
    (fst (HandleEvent (Wiring.NewDispatcher Samples.cfg_default Samples.dec
                         Samples.svc_down Samples.no_approved)
            Samples.ctx_cancelled_after_0 Samples.expired_event 0)) /\
  In (Backoff 16000000000)
    (fst (HandleEvent (Wiring.NewDispatcher Samples.cfg_default Samples.dec
                         Samples.svc_down Samples.no_approved)
            Samples.ctx_cancelled_after_0 Samples.expired_event 0)) /\
  Retryer_Do Samples.cfg_default Samples.ctx_cancelled_after_0 (fun _ _ => false)
    = ([Attempt 0 []], Err "context canceled").
Proof.
  split; [reflexivity|]. split; [vm_compute; reflexivity|].
  split; [vm_compute; tauto|]. split; [vm_compute; tauto|].
  vm_compute. reflexivity.
Qed.

End C4.

(** * Properties of the code around the claims *)

(** Wrap-around is the identity inside the signed range. *)
Lemma wrap_id (bits x : Z) :
  0 < bits -> - 2 ^ (bits - 1) <= x < 2 ^ (bits - 1) -> wrap bits x = x.
Proof.
  intros Hb Hx. unfold wrap.
  assert (Hp : 2 ^ bits = 2 * 2 ^ (bits - 1)).
  { replace bits with (Z.succ (bits - 1)) at 1 by lia. apply Z.pow_succ_r. lia. }
  assert (Hpos : 0 < 2 ^ (bits - 1)) by (apply Z.pow_pos_nonneg; lia).
  destruct (Z_le_gt_dec 0 x) as [H0|H0].
  - rewrite Z.mod_small by lia.
    destruct (Z.leb_spec (2 ^ (bits - 1)) x); lia.
  - replace (x mod 2 ^ bits) with (x + 2 ^ bits).
    + destruct (Z.leb_spec (2 ^ (bits - 1)) (x + 2 ^ bits)); lia.
    + rewrite <- (Z.mod_add x 1 (2 ^ bits)) by lia.
      rewrite Z.mod_small by lia. lia.
Qed.

Module ConfFacts.
Import Conf.

Lemma digit_value_char (d : Z) : is_digit d -> digit_value (digit_char d) = Some d.
Proof.
  unfold is_digit. intros H.
  assert (d = 0 \/ d = 1 \/ d = 2 \/ d = 3 \/ d = 4 \/ d = 5 \/ d = 6 \/ d = 7
          \/ d = 8 \/ d = 9) as Hd by lia.
  repeat (destruct Hd as [->|Hd]; [reflexivity|]). subst. reflexivity.
Qed.

Lemma digit_char_not_sign (d : Z) :
  is_digit d -> Ascii.eqb (digit_char d) "-"%char = false /\
                Ascii.eqb (digit_char d) "+"%char = false.
Proof.
  unfold is_digit. intros H.
  assert (d = 0 \/ d = 1 \/ d = 2 \/ d = 3 \/ d = 4 \/ d = 5 \/ d = 6 \/ d = 7
          \/ d = 8 \/ d = 9) as Hd by lia.
  repeat (destruct Hd as [->|Hd]; [split; reflexivity|]). subst. split; reflexivity.
Qed.

Lemma digits_acc_string (acc : Z) (ds : list Z) :
  Forall is_digit ds ->
  digits_acc acc (digits_string ds) = Some (fold_left (fun a d => a * 10 + d) ds acc).
Proof.
  revert acc. induction ds as [|d ds IH]; intros acc Hf; [reflexivity|].
  inversion Hf as [|? ? Hd Hds]; subst.
  simpl. rewrite (digit_value_char d Hd). apply IH. exact Hds.
Qed.

Lemma fold_digits_nonneg (ds : list Z) (acc : Z) :
  Forall is_digit ds -> 0 <= acc -> 0 <= fold_left (fun a d => a * 10 + d) ds acc.
Proof.
  revert acc. induction ds as [|d ds IH]; intros acc Hf Ha; [exact Ha|].
  inversion Hf as [|? ? Hd Hds]; subst. unfold is_digit in Hd.
  simpl. apply IH; [exact Hds|lia].
Qed.

Lemma digits_acc_nonneg (s : string) (acc n : Z) :
  0 <= acc -> digits_acc acc s = Some n -> 0 <= n.
Proof.
  revert acc. induction s as [|c s IH]; intros acc Ha H; simpl in H.
  - injection H as <-. exact Ha.
  - destruct (digit_value c) as [d|] eqn:Ed; [|discriminate].
    assert (0 <= d).
    { unfold digit_value in Ed.
      destruct ((0 <=? Z.of_nat (Ascii.nat_of_ascii c) - 48)
                && (Z.of_nat (Ascii.nat_of_ascii c) - 48 <=? 9)) eqn:E; [|discriminate].
      apply andb_true_iff in E as [E1 E2]. apply Z.leb_le in E1.
      injection Ed as <-. exact E1. }
    eapply IH; [|exact H]; lia.
Qed.

(** [getEnvInt] reads [Atoi]'s value; an unset, empty or invalid
    variable gives the default. *)
Lemma getEnvInt_spec (e : env) (key : string) (dflt : Z) :
  getEnvInt e key dflt = match Atoi (Getenv e key) with Some n => n | None => dflt end.
Proof.
  unfold getEnvInt. destruct (Getenv e key) as [|c s]; reflexivity.
Qed.

(** [Atoi] on a digit string, with no sign, a plus or a minus sign. *)
Lemma Atoi_digits (ds : list Z) :
  ds <> [] -> Forall is_digit ds ->
  Atoi (digits_string ds)
    = (if digits_value ds <=? MaxInt64 then Some (digits_value ds) else None) /\
  Atoi (String "+"%char (digits_string ds))
    = (if digits_value ds <=? MaxInt64 then Some (digits_value ds) else None) /\
  Atoi (String "-"%char (digits_string ds))
    = (if digits_value ds <=? 2 ^ 63 then Some (- digits_value ds) else None).
Proof.
  intros Hne Hf.
  destruct ds as [|d ds]; [contradiction|].
  pose proof (digits_acc_string 0 (d :: ds) Hf) as Hacc.
  inversion Hf as [|? ? Hd Hds]; subst.
  destruct (digit_char_not_sign d Hd) as [Hm Hp].
  unfold digits_value. split; [|split].
  - unfold Atoi. cbn [digits_string]. rewrite Hm, Hp.
    cbn [digits_string] in Hacc. rewrite Hacc. reflexivity.
  - unfold Atoi. cbn -[digits_acc Z.leb MaxInt64 digit_char digits_string].
    rewrite Hacc. reflexivity.
  - unfold Atoi. cbn -[digits_acc Z.leb MaxInt64 digit_char digits_string Z.pow].
    rewrite Hacc. reflexivity.
Qed.

(** Every value [Atoi] returns is a 64-bit [int]. *)
Lemma Atoi_range (s : string) (n : Z) : Atoi s = Some n -> - 2 ^ 63 <= n <= MaxInt64.
Proof.
  intros H. unfold Atoi in H.
  destruct s as [|c rest]; [discriminate|].
  unfold MaxInt64.
  destruct (Ascii.eqb c "-"%char); [|destruct (Ascii.eqb c "+"%char)].
  + destruct rest as [|c' r]; [discriminate|].
    destruct (digits_acc 0 (String c' r)) as [m|] eqn:E; [|discriminate].
    pose proof (digits_acc_nonneg _ 0 m ltac:(lia) E).
    match type of H with context [Z.leb m ?b] =>
      destruct (Z.leb m b) eqn:Ek; [|discriminate]; apply Z.leb_le in Ek end.
    injection H as <-. unfold MaxInt64 in *. lia.
  + destruct rest as [|c' r]; [discriminate|].
    destruct (digits_acc 0 (String c' r)) as [m|] eqn:E; [|discriminate].
    pose proof (digits_acc_nonneg _ 0 m ltac:(lia) E).
    match type of H with context [Z.leb m ?b] =>
      destruct (Z.leb m b) eqn:Ek; [|discriminate]; apply Z.leb_le in Ek end.
    injection H as <-. unfold MaxInt64 in *. lia.
  + destruct (digits_acc 0 (String c rest)) as [m|] eqn:E; [|discriminate].
    pose proof (digits_acc_nonneg _ 0 m ltac:(lia) E).
    match type of H with context [Z.leb m ?b] =>
      destruct (Z.leb m b) eqn:Ek; [|discriminate]; apply Z.leb_le in Ek end.
    injection H as <-. unfold MaxInt64 in *. lia.
Qed.

Lemma is_digit_dec_list (ds : list Z) :
  forallb (fun d => (0 <=? d) && (d <=? 9)) ds = true -> Forall is_digit ds.
Proof.
  induction ds as [|d ds IH]; simpl; intros H; [constructor|].
  apply andb_true_iff in H as [H1 H2]. apply andb_true_iff in H1 as [Ha Hb].
  constructor; [unfold is_digit; apply Z.leb_le in Ha; apply Z.leb_le in Hb; lia|auto].
Qed.

End ConfFacts.

Module StartupFacts.
Import Startup.

(** A negative [WorkerConcurrency] makes the second [make] panic, whatever
    the first one did with the wrapped-around [WorkerConcurrency*2] and
    whatever the runtime's memory. *)
Lemma NewDispatcher_alloc_negative (alloc : allocator) (c : Dispatch.Config) :
  Dispatch.WorkerConcurrency c < 0 -> NewDispatcher_alloc alloc c = None.
Proof.
  intros H. unfold NewDispatcher_alloc.
  destruct (makechan alloc 8 (wrap64 (Dispatch.WorkerConcurrency c * 2))); [|reflexivity].
  unfold makechan. destruct (Z.ltb_spec (Dispatch.WorkerConcurrency c) 0); [reflexivity|lia].
Qed.

End StartupFacts.

Module X1.
Import Conf ConfFacts.

(** X1. [strconv.Atoi] reads any non-empty run of decimal digits, with an
    optional ["+"] or ["-"] sign, as its decimal value when that value fits
    in a signed 64-bit [int] ([-2^63] included), and fails otherwise; and
    every value it returns lies in the 64-bit range. *)
Theorem Atoi_decimal_round_trip (ds : list Z) :
  ds <> [] -> Forall is_digit ds ->
  Atoi (digits_string ds)
    = (if digits_value ds <=? MaxInt64 then Some (digits_value ds) else None) /\
  Atoi (String "+"%char (digits_string ds))
    = (if digits_value ds <=? MaxInt64 then Some (digits_value ds) else None) /\
  Atoi (String "-"%char (digits_string ds))
    = (if digits_value ds <=? 2 ^ 63 then Some (- digits_value ds) else None) /\
  (forall s n, Atoi s = Some n -> - 2 ^ 63 <= n <= MaxInt64).
Proof.
  intros Hne Hf.
  destruct (Atoi_digits ds Hne Hf) as [H1 [H2 H3]].
  split; [exact H1|]. split; [exact H2|]. split; [exact H3|].
  exact Atoi_range.
Qed.

Lemma Atoi_decimal_round_trip_witness :
  Atoi (digits_string [4; 2]) = Some 42 /\
  Atoi (String "-"%char (digits_string [9; 2; 2; 3; 3; 7; 2; 0; 3; 6; 8; 5; 4; 7; 7; 5; 8; 0; 8]))
    = Some (- 2 ^ 63) /\
  Atoi (digits_string [9; 2; 2; 3; 3; 7; 2; 0; 3; 6; 8; 5; 4; 7; 7; 5; 8; 0; 8]) = None.
Proof.
  destruct (Atoi_decimal_round_trip [4; 2] ltac:(discriminate)
              (is_digit_dec_list [4; 2] eq_refl)) as [H1 _].
  destruct (Atoi_decimal_round_trip [9; 2; 2; 3; 3; 7; 2; 0; 3; 6; 8; 5; 4; 7; 7; 5; 8; 0; 8]
              ltac:(discriminate)
              (is_digit_dec_list [9; 2; 2; 3; 3; 7; 2; 0; 3; 6; 8; 5; 4; 7; 7; 5; 8; 0; 8]
                 eq_refl)) as [H2 [_ [H3 _]]].
  split; [exact H1|]. split; [exact H3|exact H2].
Defined.

End X1.



Module X3.
Import Conf ConfFacts.

(** X3. [Load] accepts a negative [WORKER_CONCURRENCY] such as ["-5"]
    without complaint, and [NewDispatcher] on that configuration panics in
    [make], whatever memory the runtime has. *)
Theorem Load_negative_concurrency_panics (e : env) (ds : list Z) :
  Getenv e "WORKER_CONCURRENCY" = String "-"%char (digits_string ds) ->
  ds <> [] -> Forall is_digit ds -> 0 < digits_value ds <= 2 ^ 63 ->
  WorkerConcurrency (Load e) = - digits_value ds /\
  forall alloc, Startup.NewDispatcher_alloc alloc (core (Load e)) = None.
Proof.
  intros Hg Hne Hf Hv.
  assert (Hw : WorkerConcurrency (Load e) = - digits_value ds).
  { change (WorkerConcurrency (Load e)) with (getEnvInt e "WORKER_CONCURRENCY" 20).
    rewrite getEnvInt_spec, Hg.
    destruct (Atoi_digits ds Hne Hf) as [_ [_ ->]].
    destruct (Z.leb_spec (digits_value ds) (2 ^ 63)); [reflexivity|lia]. }
  split; [exact Hw|].
  intros alloc.
  apply StartupFacts.NewDispatcher_alloc_negative. cbn [core Dispatch.WorkerConcurrency]. lia.
Qed.

Lemma Load_negative_concurrency_panics_witness :
  WorkerConcurrency (Load MoreSamples.env_negative_workers) = -5 /\
  forall alloc,
    Startup.NewDispatcher_alloc alloc (core (Load MoreSamples.env_negative_workers)) = None.
Proof.
  apply (Load_negative_concurrency_panics MoreSamples.env_negative_workers [5]).
  - reflexivity.
  - discriminate.
  - apply (is_digit_dec_list [5] eq_refl).
  - unfold digits_value. simpl. lia.
Defined.

End X3.


Module EnvConfFacts.
Import EnvConf.

Lemma Load_ok (parsed : result Config) (c : Config) :
  Load parsed = Ok c ->
  Validate c = Ok tt /\ BackoffBaseDuration c = wrap64 (BackoffBaseMs c * 1000000).
Proof.
  unfold Load. destruct parsed as [c0|m]; [|discriminate].
  match goal with |- context [Validate ?x] => destruct (Validate x) as [[]|m] eqn:V end;
    [|discriminate].
  intros H. injection H as <-. split; [exact V|reflexivity].
Qed.

Lemma Validate_ok (c : Config) :
  Validate c = Ok tt ->
  SQSQueueURL c <> "" /\ 1 <= SQSWaitTime c <= 20 /\ 1 <= WorkerConcurrency c <= 1000 /\
  0 <= MaxRetries c <= 10 /\ 100 <= BackoffBaseMs c <= 10000 /\
  InventoryGRPCAddr c <> "" /\ ReservationAPIBase c <> "" /\
  In (LogLevel c) ["debug"; "info"; "warn"; "error"].
Proof.
  unfold Validate. intros H.
  destruct (String.eqb (SQSQueueURL c) "") eqn:E0; [discriminate|].
  apply String.eqb_neq in E0.
  destruct ((SQSWaitTime c <=? 0) || (20 <? SQSWaitTime c)) eqn:E1; [discriminate|].
  apply orb_false_iff in E1 as [E1a E1b]. apply Z.leb_gt in E1a. apply Z.ltb_ge in E1b.
  destruct ((WorkerConcurrency c <=? 0) || (1000 <? WorkerConcurrency c)) eqn:E2;
    [discriminate|].
  apply orb_false_iff in E2 as [E2a E2b]. apply Z.leb_gt in E2a. apply Z.ltb_ge in E2b.
  destruct ((MaxRetries c <? 0) || (10 <? MaxRetries c)) eqn:E3; [discriminate|].
  apply orb_false_iff in E3 as [E3a E3b]. apply Z.ltb_ge in E3a. apply Z.ltb_ge in E3b.
  destruct ((BackoffBaseMs c <? 100) || (10000 <? BackoffBaseMs c)) eqn:E4; [discriminate|].
  apply orb_false_iff in E4 as [E4a E4b]. apply Z.ltb_ge in E4a. apply Z.ltb_ge in E4b.
  destruct (String.eqb (InventoryGRPCAddr c) "") eqn:E5; [discriminate|].
  apply String.eqb_neq in E5.
  destruct (String.eqb (ReservationAPIBase c) "") eqn:E6; [discriminate|].
  apply String.eqb_neq in E6.
  split; [exact E0|]. split; [lia|]. split; [lia|]. split; [lia|]. split; [lia|].
  split; [exact E5|]. split; [exact E6|].
  destruct (String.eqb (LogLevel c) "debug") eqn:L1;
    [apply String.eqb_eq in L1; rewrite L1; simpl; tauto|].
  destruct (String.eqb (LogLevel c) "info") eqn:L2;
    [apply String.eqb_eq in L2; rewrite L2; simpl; tauto|].
  destruct (String.eqb (LogLevel c) "warn") eqn:L3;
    [apply String.eqb_eq in L3; rewrite L3; simpl; tauto|].
  destruct (String.eqb (LogLevel c) "error") eqn:L4;
    [apply String.eqb_eq in L4; rewrite L4; simpl; tauto|].
  simpl in H. discriminate.
Qed.

(** [1 << attempt] on a 64-bit [time.Duration]. *)
Lemma wrap64_shiftl_small (a : Z) : 0 <= a < 63 -> wrap64 (Z.shiftl 1 a) = 2 ^ a.
Proof.
  intros Ha. rewrite Z.shiftl_1_l. unfold wrap64. apply wrap_id; [lia|].
  split.
  - pose proof (Z.pow_pos_nonneg 2 a ltac:(lia) ltac:(lia)).
    pose proof (Z.pow_pos_nonneg 2 (64 - 1) ltac:(lia) ltac:(lia)). lia.
  - apply Z.pow_lt_mono_r; lia.
Qed.

Lemma wrap64_shiftl_large (a : Z) : 64 <= a -> wrap64 (Z.shiftl 1 a) = 0.
Proof.
  intros Ha. rewrite Z.shiftl_1_l. unfold wrap64, wrap.
  replace (2 ^ a) with (2 ^ (a - 64) * 2 ^ 64).
  - rewrite Z.mod_mul by (apply Z.pow_nonzero; lia). reflexivity.
  - rewrite <- Z.pow_add_r by lia. f_equal. lia.
Qed.

End EnvConfFacts.

Module X5.
Import Conf ConfFacts.

(** X5. [getMessageApproximateReceiveCount] reads the
    ["ApproximateReceiveCount"] attribute as a decimal number; with no
    attribute map, no such key or a value [Atoi] rejects it returns 0. *)
Theorem getMessageApproximateReceiveCount_reads_count
    (attrs : gmap string string) (ds : list Z) (s : string) :
  ds <> [] -> Forall is_digit ds -> digits_value ds <= MaxInt64 -> Atoi s = None ->
  getMessageApproximateReceiveCount
    (Some (<["ApproximateReceiveCount" := digits_string ds]> attrs)) = digits_value ds /\
  getMessageApproximateReceiveCount
    (Some (<["ApproximateReceiveCount" := s]> attrs)) = 0 /\
  getMessageApproximateReceiveCount
    (Some (delete "ApproximateReceiveCount" attrs)) = 0 /\
  getMessageApproximateReceiveCount None = 0.
Proof.
  intros Hne Hf Hv Hs. unfold getMessageApproximateReceiveCount.
  rewrite !lookup_insert_eq, lookup_delete_eq.
  destruct (Atoi_digits ds Hne Hf) as [-> _].
  destruct (Z.leb_spec (digits_value ds) MaxInt64); [|lia].
  rewrite Hs. repeat split.
Qed.

Lemma getMessageApproximateReceiveCount_reads_count_witness :
  getMessageApproximateReceiveCount
    (Some (<["ApproximateReceiveCount" := "3"]> MoreSamples.attrs_three)) = 3 /\
  getMessageApproximateReceiveCount
    (Some (<["ApproximateReceiveCount" := "three"]> MoreSamples.attrs_three)) = 0.
Proof.
  destruct (getMessageApproximateReceiveCount_reads_count MoreSamples.attrs_three [3] "three"
              ltac:(discriminate) (is_digit_dec_list [3] eq_refl)
              ltac:(unfold digits_value, MaxInt64; simpl; lia)
              ltac:(vm_compute; reflexivity)) as [H1 [H2 _]].
  split; [exact H1|exact H2].
Defined.

End X5.

Module X6.
Import Conf.

(** X6. [MergeWithSecrets] changes at most the four secret-backed fields
    (queue URL, inventory address, reservation API base, OTEL endpoint);
    each of them either keeps its value or takes a non-empty secret, so a
    field that was set is never cleared. *)
Theorem MergeWithSecrets_only_secret_fields fetch decode (c : Config) :
  match MergeWithSecrets fetch decode c with
  | (_, c') =>
      with_secret_fields c (SQSQueueURL c') (InventoryGRPCAddr c') (ReservationAPIBase c')
        (OTELExporterEndpoint c') = c' /\
      (SQSQueueURL c' = SQSQueueURL c \/ SQSQueueURL c' <> "") /\
      (InventoryGRPCAddr c' = InventoryGRPCAddr c \/ InventoryGRPCAddr c' <> "") /\
      (ReservationAPIBase c' = ReservationAPIBase c \/ ReservationAPIBase c' <> "") /\
      (OTELExporterEndpoint c' = OTELExporterEndpoint c \/ OTELExporterEndpoint c' <> "")
  end.
Proof.
  assert (Ho : forall cur sec, override cur sec = cur \/ override cur sec <> "").
  { intros cur sec. unfold override.
    destruct (String.eqb_spec sec "") as [->|Hn]; [left; reflexivity|right; exact Hn]. }
  unfold MergeWithSecrets.
  destruct (negb (UseSecretManager c)).
  - destruct c; simpl. repeat split; left; reflexivity.
  - destruct (LoadSecretsFromAWS fetch decode (AWSRegion c) (SecretName c) (AWSProfile c))
      as [sc|m].
    + simpl. split; [reflexivity|]. repeat split; apply Ho.
    + destruct c; simpl. repeat split; left; reflexivity.
Qed.

End X6.

Module X7.
Import Conf.

(** X7. [MergeWithSecrets] leaves the configuration unchanged when the
    secret manager is off (and then succeeds), when loading the secret
    fails (and then returns the error), and when the secret has no string
    value (and then succeeds). *)
Theorem MergeWithSecrets_unchanged fetch decode (c : Config) :
  (UseSecretManager c = false -> MergeWithSecrets fetch decode c = (Ok tt, c)) /\
  (forall m, fst (MergeWithSecrets fetch decode c) = Err m ->
             snd (MergeWithSecrets fetch decode c) = c) /\
  (fetch (AWSRegion c) (SecretName c) (AWSProfile c) = Ok None ->
   MergeWithSecrets fetch decode c = (Ok tt, c)).
Proof.
  unfold MergeWithSecrets. split; [|split].
  - intros H. rewrite H. reflexivity.
  - intros m. destruct (negb (UseSecretManager c)); [discriminate|].
    destruct (LoadSecretsFromAWS _ _ _ _ _); [discriminate|reflexivity].
  - intros H. destruct (negb (UseSecretManager c)); [reflexivity|].
    unfold LoadSecretsFromAWS. rewrite H. destruct c; reflexivity.
Qed.

End X7.

Module X8.
Import EnvConf EnvConfFacts.

(** X8. A configuration returned by [Load] (of internal/config, with
    validation) satisfies every check of [Validate]: queue URL, inventory
    address and reservation API base set, wait time in 1..20, worker
    concurrency in 1..1000, max retries in 0..10, backoff base in
    100..10000 ms, log level one of debug, info, warn, error; and its
    [BackoffBaseDuration] is the base in nanoseconds, without overflow. *)
Theorem Load_validated (parsed : result Config) (c : Config) :
  Load parsed = Ok c ->
  SQSQueueURL c <> "" /\ 1 <= SQSWaitTime c <= 20 /\ 1 <= WorkerConcurrency c <= 1000 /\
  0 <= MaxRetries c <= 10 /\ 100 <= BackoffBaseMs c <= 10000 /\
  InventoryGRPCAddr c <> "" /\ ReservationAPIBase c <> "" /\
  In (LogLevel c) ["debug"; "info"; "warn"; "error"] /\
  BackoffBaseDuration c = BackoffBaseMs c * 1000000.
Proof.
  intros H. destruct (Load_ok parsed c H) as [Hv Hd].
  pose proof (Validate_ok c Hv) as Hb.
  repeat (split; [tauto|]).
  rewrite Hd. unfold wrap64. apply wrap_id; [lia|].
  destruct Hb as (_ & _ & _ & _ & Hm & _). simpl. lia.
Qed.

Lemma Load_validated_witness :
  Load (Ok MoreSamples.envconf_sample) = Ok MoreSamples.envconf_loaded /\
  BackoffBaseDuration MoreSamples.envconf_loaded = 1000 * 1000000.
Proof.
  assert (H : Load (Ok MoreSamples.envconf_sample) = Ok MoreSamples.envconf_loaded)
    by (vm_compute; reflexivity).
  split; [exact H|].
  destruct (Load_validated _ _ H) as (_ & _ & _ & _ & _ & _ & _ & _ & Hd).
  exact Hd.
Defined.

End X8.

Module X9.
Import EnvConf EnvConfFacts.

(** X9. For a configuration returned by [Load] and an attempt
    [0 <= a <= MaxRetries], [GetBackoffDuration] is exactly
    [BackoffBaseMs * 2^a] milliseconds, with no overflow and no cap; the
    longest wait it can give is 10240 s. *)
Theorem GetBackoffDuration_validated (parsed : result Config) (c : Config) (a : Z) :
  Load parsed = Ok c -> 0 <= a <= MaxRetries c ->
  GetBackoffDuration c a = Some (BackoffBaseMs c * 2 ^ a * 1000000) /\
  BackoffBaseMs c * 2 ^ a * 1000000 <= 10240 * 1000000000.
Proof.
  intros H Ha. destruct (Load_ok parsed c H) as [Hv Hd].
  destruct (Validate_ok c Hv) as (_ & _ & _ & Hm & Hb & _).
  assert (Hp : 1 <= 2 ^ a <= 2 ^ 10).
  { split.
    - pose proof (Z.pow_pos_nonneg 2 a ltac:(lia) ltac:(lia)). lia.
    - apply Z.pow_le_mono_r; lia. }
  assert (Hd' : BackoffBaseDuration c = BackoffBaseMs c * 1000000).
  { rewrite Hd. unfold wrap64. apply wrap_id; [lia|]. simpl. lia. }
  split.
  - unfold GetBackoffDuration.
    destruct (Z.ltb_spec a 0); [lia|].
    rewrite wrap64_shiftl_small by lia. rewrite Hd'.
    f_equal. unfold wrap64. rewrite wrap_id; [lia|lia|].
    simpl. split; nia.
  - simpl in Hp. nia.
Qed.

Lemma GetBackoffDuration_validated_witness :
  GetBackoffDuration MoreSamples.envconf_loaded 3 = Some 8000000000.
Proof.
  destruct (GetBackoffDuration_validated (Ok MoreSamples.envconf_sample)
              MoreSamples.envconf_loaded 3
              ltac:(vm_compute; reflexivity) ltac:(simpl; lia)) as [H _].
  exact H.
Defined.

End X9.

Module X10.
Import EnvConf EnvConfFacts.

(** X10. [GetBackoffDuration] of internal/config panics on a negative
    attempt (negative shift count) and returns a zero wait for an attempt
    of 64 or more (the shifted bit leaves the 64-bit duration). *)
Theorem GetBackoffDuration_shift_edges (c : Config) (a : Z) :
  (a < 0 -> GetBackoffDuration c a = None) /\
  (64 <= a -> GetBackoffDuration c a = Some 0).
Proof.
  unfold GetBackoffDuration. split; intros Ha.
  - destruct (Z.ltb_spec a 0); [reflexivity|lia].
  - destruct (Z.ltb_spec a 0); [lia|].
    rewrite wrap64_shiftl_large by exact Ha. rewrite Z.mul_0_r. reflexivity.
Qed.

End X10.

Module RetryFacts.
Import Dispatch Retry.

Lemma Retryer_Do_fuel_bounds (f : nat) (c : Config) done fn (a : Z) :
  0 <= a ->
  (attempts (fst (Retryer_Do_fuel f c done fn a)) <= Z.to_nat (MaxRetries c - a))%nat /\
  (forall k calls, In (Attempt k calls) (fst (Retryer_Do_fuel f c done fn a)) ->
     a <= k < MaxRetries c /\ done k = false /\ calls = []) /\
  (snd (Retryer_Do_fuel f c done fn a) = Ok tt ->
     exists k, In (Attempt k []) (fst (Retryer_Do_fuel f c done fn a)) /\ fn false k = true).
Proof.
  revert a. induction f as [|f IH]; intros a Ha; simpl.
  { split; [lia|split; [intros k calls []|discriminate]]. }
  destruct (Z.ltb_spec a (MaxRetries c)) as [Hl|Hl];
    [|split; [simpl; lia|split; [intros k calls []|discriminate]]].
  destruct (done a) eqn:Hd; [split; [simpl; lia|split; [intros k calls []|discriminate]]|].
  destruct (fn false a) eqn:Hf.
  { simpl. split; [lia|split].
    - intros k calls [Hk|[]]. injection Hk as <- <-. auto with zarith.
    - intros _. exists a. split; [left; reflexivity|exact Hf]. }
  destruct (Z.eqb_spec a (MaxRetries c - 1)).
  { simpl. split; [lia|split; [|discriminate]].
    intros k calls [Hk|[]]. injection Hk as <- <-. auto with zarith. }
  destruct (done (a + 1)) eqn:Hd1.
  { simpl. split; [lia|split; [|discriminate]].
    intros k calls [Hk|[]]. injection Hk as <- <-. auto with zarith. }
  specialize (IH (a + 1) ltac:(lia)).
  destruct (Retryer_Do_fuel f c done fn (a + 1)) as [rest r] eqn:E. simpl in IH |- *.
  destruct IH as [IH1 [IH2 IH3]].
  split; [lia|split].
  - intros k calls [Hk|[Hk|Hk]]; [injection Hk as <- <-; auto with zarith|discriminate|].
    destruct (IH2 k calls Hk) as [? [? ?]]. split; [lia|auto].
  - intros Hr. destruct (IH3 Hr) as [k [Hk Hfk]]. exists k.
    split; [right; right; exact Hk|exact Hfk].
Qed.

Lemma Retryer_Do_fuel_failing (f : nat) (c : Config) fn (a : Z) :
  (forall k, fn false k = false) -> 0 <= a < MaxRetries c ->
  (Z.to_nat (MaxRetries c - a) < f)%nat ->
  attempts (fst (Retryer_Do_fuel f c (fun _ => false) fn a)) = Z.to_nat (MaxRetries c - a) /\
  backoffs (fst (Retryer_Do_fuel f c (fun _ => false) fn a))
    = map (GetBackoffDuration c) (seqZ a (MaxRetries c - a - 1)) /\
  snd (Retryer_Do_fuel f c (fun _ => false) fn a) = Err "operation failed after attempts".
Proof.
  revert a. induction f as [|f IH]; intros a Hfn Ha Hf; [lia|]. simpl.
  destruct (Z.ltb_spec a (MaxRetries c)) as [_|]; [|lia].
  rewrite Hfn.
  destruct (Z.eqb_spec a (MaxRetries c - 1)) as [He|He].
  { simpl. rewrite seqZ_nil by lia. split; [lia|split; reflexivity]. }
  destruct (IH (a + 1) Hfn ltac:(lia) ltac:(lia)) as [IH1 [IH2 IH3]].
  destruct (Retryer_Do_fuel f c (fun _ => false) fn (a + 1)) as [rest r]. simpl in *.
  split; [lia|split; [|exact IH3]].
  rewrite IH2, (seqZ_cons a) by lia. simpl.
  replace (Z.succ a) with (a + 1) by lia.
  replace (Z.pred (MaxRetries c - a - 1)) with (MaxRetries c - (a + 1) - 1) by lia.
  reflexivity.
Qed.

Lemma DoWithResult_fuel_Do {T : Type} (f : nat) (c : Config) done
    (fn : bool -> Z -> result T) (a : Z) :
  fst (DoWithResult_fuel f c done fn a)
    = fst (Retryer_Do_fuel f c done (fun b k => is_ok (fn b k)) a) /\
  is_ok (snd (DoWithResult_fuel f c done fn a))
    = is_ok (snd (Retryer_Do_fuel f c done (fun b k => is_ok (fn b k)) a)).
Proof.
  revert a. induction f as [|f IH]; intros a; simpl; [split; reflexivity|].
  destruct (a <? MaxRetries c); [|split; reflexivity].
  destruct (done a); [split; reflexivity|].
  destruct (fn false a) as [v|m]; simpl; [split; reflexivity|].
  destruct (a =? MaxRetries c - 1); [split; reflexivity|].
  destruct (done (a + 1)); [split; reflexivity|].
  specialize (IH (a + 1)).
  destruct (DoWithResult_fuel f c done fn (a + 1)) as [t1 r1].
  destruct (Retryer_Do_fuel f c done (fun b k => is_ok (fn b k)) (a + 1)) as [t2 r2].
  simpl in *. destruct IH as [-> ->]. split; reflexivity.
Qed.

Lemma DoWithResult_fuel_value {T : Type} (f : nat) (c : Config) done
    (fn : bool -> Z -> result T) (a : Z) (v : T) :
  snd (DoWithResult_fuel f c done fn a) = Ok v ->
  exists k, In (Attempt k []) (fst (DoWithResult_fuel f c done fn a)) /\ fn false k = Ok v.
Proof.
  revert a. induction f as [|f IH]; intros a; simpl; [discriminate|].
  destruct (a <? MaxRetries c); [|discriminate].
  destruct (done a); [discriminate|].
  destruct (fn false a) as [w|m] eqn:Hf; simpl.
  { intros H. injection H as ->. exists a. split; [left; reflexivity|exact Hf]. }
  destruct (a =? MaxRetries c - 1); [discriminate|].
  destruct (done (a + 1)); [discriminate|].
  specialize (IH (a + 1)).
  destruct (DoWithResult_fuel f c done fn (a + 1)) as [t1 r1]. simpl in *.
  intros H. destruct (IH H) as [k [Hk Hfk]]. exists k.
  split; [right; right; exact Hk|exact Hfk].
Qed.

End RetryFacts.

Module X11.
Import Dispatch RetryFacts.

(** X11. [Retryer.Do] makes at most [MaxRetries] attempts, numbered from 0
    to [MaxRetries - 1]; it never starts an attempt once the context is
    done; and it returns [nil] only when some attempt's function returned
    [nil]. *)
Theorem Retryer_Do_bounded (c : Config) (done : Z -> bool) (fn : bool -> Z -> bool) :
  (attempts (fst (Retryer_Do c done fn)) <= Z.to_nat (MaxRetries c))%nat /\
  (forall k calls, In (Attempt k calls) (fst (Retryer_Do c done fn)) ->
     0 <= k < MaxRetries c /\ done k = false) /\
  (snd (Retryer_Do c done fn) = Ok tt ->
     exists k, In (Attempt k []) (fst (Retryer_Do c done fn)) /\ fn false k = true).
Proof.
  unfold Retryer_Do.
  destruct (Retryer_Do_fuel_bounds (S (Z.to_nat (MaxRetries c))) c done fn 0 ltac:(lia))
    as [H1 [H2 H3]].
  split; [rewrite Z.sub_0_r in H1; exact H1|split; [|exact H3]].
  intros k calls Hk. destruct (H2 k calls Hk) as [? [? _]]. auto.
Qed.

End X11.

Module X12.
Import Dispatch Retry RetryFacts.

(** X12. When the function always fails and the context stays live,
    [Retryer.Do] with [MaxRetries >= 1] makes exactly [MaxRetries]
    attempts, waits [GetBackoffDuration(0)], ...,
    [GetBackoffDuration(MaxRetries - 2)] in between (no wait after the last
    attempt) and returns an error. *)
Theorem Retryer_Do_failing_schedule (c : Config) (fn : bool -> Z -> bool) :
  (forall k, fn false k = false) -> 1 <= MaxRetries c ->
  attempts (fst (Retryer_Do c (fun _ => false) fn)) = Z.to_nat (MaxRetries c) /\
  backoffs (fst (Retryer_Do c (fun _ => false) fn))
    = map (GetBackoffDuration c) (seqZ 0 (MaxRetries c - 1)) /\
  snd (Retryer_Do c (fun _ => false) fn) = Err "operation failed after attempts".
Proof.
  intros Hfn Hm. unfold Retryer_Do.
  destruct (Retryer_Do_fuel_failing (S (Z.to_nat (MaxRetries c))) c fn 0 Hfn
              ltac:(lia) ltac:(lia)) as [H1 [H2 H3]].
  rewrite Z.sub_0_r in H1, H2. auto.
Qed.

Lemma Retryer_Do_failing_schedule_witness :
  backoffs (fst (Retryer_Do Samples.cfg_default (fun _ => false) (fun _ _ => false)))
    = [1000000000; 2000000000; 4000000000; 8000000000].
Proof.
  destruct (Retryer_Do_failing_schedule Samples.cfg_default (fun _ _ => false)
              (fun _ => eq_refl) ltac:(simpl; lia)) as [_ [H _]].
  rewrite H. vm_compute. reflexivity.
Defined.

End X12.

Module X13.
Import Dispatch Retry.

(** X13. With [MaxRetries <= 0] (the validated configuration allows 0),
    [Retryer.Do] and [DoWithResult] never call the function, however it
    would behave, and return the "failed after 0 attempts" error. *)
Theorem Retry_no_attempt_without_retries (c : Config) (done : Z -> bool)
    (fn : bool -> Z -> bool) {T : Type} (fnr : bool -> Z -> result T) :
  MaxRetries c <= 0 ->
  Retryer_Do c done fn = ([], Err "operation failed after attempts") /\
  DoWithResult c done fnr = ([], Err "operation failed after attempts").
Proof.
  intros Hm. unfold Retryer_Do, DoWithResult.
  replace (Z.to_nat (MaxRetries c)) with O by lia. simpl.
  destruct (Z.ltb_spec 0 (MaxRetries c)); [lia|]. split; reflexivity.
Qed.

Lemma Retry_no_attempt_without_retries_witness :
  Retryer_Do (mkConfig 20 20 0 1000) (fun _ => false) (fun _ _ => true)
    = ([], Err "operation failed after attempts") /\
  DoWithResult (mkConfig 20 20 0 1000) (fun _ => false) (fun _ _ => Ok 7)
    = ([], Err "operation failed after attempts").
Proof.
  exact (Retry_no_attempt_without_retries (mkConfig 20 20 0 1000) (fun _ => false)
           (fun _ _ => true) (fun _ _ => Ok 7) ltac:(simpl; lia)).
Defined.

End X13.

Module X14.
Import Dispatch Retry RetryFacts.

(** X14. [DoWithResult] runs the same schedule as [Retryer.Do] on the
    function's success or failure (same attempts, same waits, success in
    the same cases), and the value it returns is the one the function
    returned at one of its attempts. *)
Theorem DoWithResult_refines_Do {T : Type} (c : Config) (done : Z -> bool)
    (fn : bool -> Z -> result T) :
  fst (DoWithResult c done fn) = fst (Retryer_Do c done (fun b k => is_ok (fn b k))) /\
  is_ok (snd (DoWithResult c done fn))
    = is_ok (snd (Retryer_Do c done (fun b k => is_ok (fn b k)))) /\
  (forall v, snd (DoWithResult c done fn) = Ok v ->
     exists k, In (Attempt k []) (fst (DoWithResult c done fn)) /\ fn false k = Ok v).
Proof.
  unfold DoWithResult, Retryer_Do.
  destruct (DoWithResult_fuel_Do (S (Z.to_nat (MaxRetries c))) c done fn 0) as [H1 H2].
  split; [exact H1|split; [exact H2|]].
  intros v. apply DoWithResult_fuel_value.
Qed.

End X14.

Module HandlerFacts.
Import Handlers.

Lemma wrap32_range (x : Z) :
  - 2 ^ 31 <= wrap32 x < 2 ^ 31 /\ (wrap32 x - x) mod 2 ^ 32 = 0.
Proof.
  unfold wrap32, wrap. change (2 ^ (32 - 1)) with (2 ^ 31).
  pose proof (Z.mod_pos_bound x (2 ^ 32) ltac:(lia)) as Hb.
  pose proof (Z.div_mod x (2 ^ 32) ltac:(lia)) as Hd.
  destruct (Z.leb_spec (2 ^ 31) (x mod 2 ^ 32)).
  - split; [lia|].
    replace (x mod 2 ^ 32 - 2 ^ 32 - x) with ((- (x / 2 ^ 32) - 1) * 2 ^ 32) by lia.
    apply Z.mod_mul. lia.
  - split; [lia|].
    replace (x mod 2 ^ 32 - x) with (- (x / 2 ^ 32) * 2 ^ 32) by lia.
    apply Z.mod_mul. lia.
Qed.

End HandlerFacts.

Module X15.
Import Handlers Dispatch Retry DispatchFacts.

(** X15. When the handler an event is routed to fails at every attempt,
    [HandleEvent] started at attempt [a <= MaxRetries] makes exactly
    [MaxRetries - a + 1] attempts, sleeps [GetBackoffDuration(a)], ...,
    [GetBackoffDuration(MaxRetries - 1)] in between, and returns an
    error. *)
Theorem HandleEvent_failing_schedule (d : Dispatcher) (ctx : Z -> bool) (ev : Event)
    (h : handler_fn) (a : Z) :
  route d (Type_ ev) = Some h -> (forall b k, is_ok (snd (h ev b k)) = false) ->
  a <= MaxRetries (config d) ->
  attempts (fst (HandleEvent d ctx ev a)) = S (Z.to_nat (MaxRetries (config d) - a)) /\
  backoffs (fst (HandleEvent d ctx ev a))
    = map (GetBackoffDuration (config d)) (seqZ a (MaxRetries (config d) - a)) /\
  is_ok (snd (HandleEvent d ctx ev a)) = false.
Proof.
  intros Hr Hf.
  remember (Z.to_nat (MaxRetries (config d) - a)) as n eqn:Hn.
  revert a Hn. induction n as [|n IH]; intros a Hn Ha;
    rewrite HandleEvent_unfold, Hr;
    pose proof (Hf (ctx a) a) as Hfa;
    destruct (h ev (ctx a) a) as [calls [u|m]]; try discriminate.
  - destruct (Z.leb_spec (MaxRetries (config d)) a); [|lia].
    simpl. rewrite seqZ_nil by lia. split; [reflexivity|split; reflexivity].
  - destruct (Z.leb_spec (MaxRetries (config d)) a); [lia|].
    destruct (IH (a + 1) ltac:(lia) ltac:(lia)) as [IH1 [IH2 IH3]].
    destruct (HandleEvent d ctx ev (a + 1)) as [rest r']. simpl in *.
    split; [lia|split; [|exact IH3]].
    rewrite IH2, (seqZ_cons a) by lia. simpl.
    replace (Z.succ a) with (a + 1) by lia.
    replace (Z.pred (MaxRetries (config d) - a)) with (MaxRetries (config d) - (a + 1)) by lia.
    reflexivity.
Qed.

Lemma HandleEvent_failing_schedule_witness :
  backoffs (fst (HandleEvent (Wiring.NewDispatcher Samples.cfg_default Samples.dec
                                Samples.svc_down Samples.no_approved)
                   (fun _ => false) Samples.expired_event 0))
    = [1000000000; 2000000000; 4000000000; 8000000000; 16000000000].
Proof.
  destruct (HandleEvent_failing_schedule
              (Wiring.NewDispatcher Samples.cfg_default Samples.dec
                 Samples.svc_down Samples.no_approved)
              (fun _ => false) Samples.expired_event
              (fun ev done k => ExpiredHandler_Handle Samples.dec (Samples.svc_down done k) ev) 0
              eq_refl (fun _ _ => eq_refl) ltac:(simpl; lia)) as [_ [H _]].
  rewrite H. vm_compute. reflexivity.
Defined.

End X15.

Module X16.
Import Handlers Dispatch DispatchFacts.

(** X16. [HandleEvent] runs no handler, records an invalid payload and
    fails for every event type other than [reservation.expired],
    [reservation.hold.expired], [payment.approved] and [payment.failed];
    this includes the declared [reservation.hold.created]. *)
Theorem HandleEvent_unrouted (d : Dispatcher) (ctx : Z -> bool) (ev : Event) (a : Z) :
  ~ In (Type_ ev) [EventTypeReservationExpired; EventTypeReservationHoldExpired;
                   EventTypePaymentApproved; EventTypePaymentFailed] ->
  HandleEvent d ctx ev a = ([Outcome "invalid_payload"], Err "unknown event type").
Proof.
  intros Hn. rewrite HandleEvent_unfold. unfold route.
  destruct (String.eqb_spec (Type_ ev) EventTypeReservationExpired);
    [exfalso; apply Hn; rewrite e; simpl; tauto|].
  destruct (String.eqb_spec (Type_ ev) EventTypeReservationHoldExpired);
    [exfalso; apply Hn; rewrite e; simpl; tauto|].
  destruct (String.eqb_spec (Type_ ev) EventTypePaymentApproved);
    [exfalso; apply Hn; rewrite e; simpl; tauto|].
  destruct (String.eqb_spec (Type_ ev) EventTypePaymentFailed);
    [exfalso; apply Hn; rewrite e; simpl; tauto|].
  reflexivity.
Qed.

Lemma HandleEvent_unrouted_witness :
  HandleEvent (Wiring.NewDispatcher Samples.cfg_default Samples.dec
                 Samples.svc_up Samples.no_approved)
    (fun _ => false) MoreSamples.hold_created_event 0
  = ([Outcome "invalid_payload"], Err "unknown event type").
Proof.
  apply HandleEvent_unrouted. vm_compute. intros [H|[H|[H|[H|[]]]]]; discriminate.
Defined.

End X16.

Module X17.
Import Handlers.

(** X17. [FailedHandler.Handle] either makes no downstream call and fails
    (the detail does not decode to a payment-failed detail), or first
    updates the reservation to [CANCELLED] and releases the hold (with
    the [int32] quantity) only after that update succeeded and when the
    detail has an event id and seats; it succeeds exactly when it made a
    call and every call it made succeeded. *)
Theorem FailedHandler_flow (dec : decoders) (svc : effect -> bool) (e : Event) :
  match FailedHandler_Handle dec svc e with
  | (calls, r) =>
      ((calls = [] /\ is_ok r = false) \/
       exists d, ParseEventDetail dec e = Ok (DFailed d) /\
         ((calls = [UpdateStatus (fd_ReservationID d) StatusCancelled] /\
           (svc (UpdateStatus (fd_ReservationID d) StatusCancelled) = false \/
            fd_EventID d = "" \/ fd_SeatIDs d = [])) \/
          (calls = [UpdateStatus (fd_ReservationID d) StatusCancelled;
                    ReleaseHold (fd_EventID d) (fd_ReservationID d)
                      (wrap32 (fd_Quantity d)) (fd_SeatIDs d)] /\
           svc (UpdateStatus (fd_ReservationID d) StatusCancelled) = true /\
           fd_EventID d <> "" /\ fd_SeatIDs d <> []))) /\
      (is_ok r = true <-> calls <> [] /\ Forall (fun x => svc x = true) calls)
  end.
Proof.
  unfold FailedHandler_Handle.
  destruct (ParseEventDetail dec e) as [[dd|dd|dd]|m] eqn:Hp;
    try (split; [left; split; reflexivity|simpl; split; [discriminate|intros [[] _]]; reflexivity]).
  unfold call.
  destruct (svc (UpdateStatus (fd_ReservationID dd) StatusCancelled)) eqn:Hu.
  - destruct (String.eqb_spec (fd_EventID dd) "") as [He|He]; simpl.
    + split.
      * right. exists dd. split; [reflexivity|]. left. split; [reflexivity|]. auto.
      * split; [intros _; split; [discriminate|repeat constructor; exact Hu]|reflexivity].
    + destruct (Nat.eqb_spec (length (fd_SeatIDs dd)) 0) as [Hl|Hl]; simpl.
      * split.
        -- right. exists dd. split; [reflexivity|]. left. split; [reflexivity|].
           right; right. destruct (fd_SeatIDs dd); [reflexivity|discriminate].
        -- split; [intros _; split; [discriminate|repeat constructor; exact Hu]|reflexivity].
      * destruct (svc (ReleaseHold (fd_EventID dd) (fd_ReservationID dd)
                         (wrap32 (fd_Quantity dd)) (fd_SeatIDs dd))) eqn:Hrel; simpl.
        -- split.
           ++ right. exists dd. split; [reflexivity|]. right.
              split; [reflexivity|]. split; [exact Hu|]. split; [exact He|].
              intros Hs. rewrite Hs in Hl. apply Hl. reflexivity.
           ++ split; [intros _; split; [discriminate|repeat constructor; assumption]|reflexivity].
        -- split.
           ++ right. exists dd. split; [reflexivity|]. right.
              split; [reflexivity|]. split; [exact Hu|]. split; [exact He|].
              intros Hs. rewrite Hs in Hl. apply Hl. reflexivity.
           ++ split; [discriminate|].
              intros [_ Hall]. inversion Hall as [|? ? _ Hall']. subst.
              inversion Hall'. congruence.
  - simpl. split.
    + right. exists dd. split; [reflexivity|]. left. split; [reflexivity|]. left; exact Hu.
    + split; [discriminate|]. intros [_ Hall]. inversion Hall. congruence.
Qed.

End X17.

Module X18.
Import Handlers HandlerFacts.

(** X18. The quantity [FailedHandler.Handle] releases is the detail's
    quantity converted with [int32(...)]: always in the [int32] range,
    congruent to the detail's quantity modulo 2^32, and equal to it when
    it fits in 32 bits (a quantity of 2^32 + 2 is released as 2). *)
Theorem FailedHandler_release_quantity (dec : decoders) (svc : effect -> bool) (e : Event)
    (eid rid : string) (q : Z) (seats : list string) :
  In (ReleaseHold eid rid q seats) (fst (FailedHandler_Handle dec svc e)) ->
  exists d, ParseEventDetail dec e = Ok (DFailed d) /\ q = wrap32 (fd_Quantity d) /\
    - 2 ^ 31 <= q < 2 ^ 31 /\ (q - fd_Quantity d) mod 2 ^ 32 = 0 /\
    (- 2 ^ 31 <= fd_Quantity d < 2 ^ 31 -> q = fd_Quantity d).
Proof.
  unfold FailedHandler_Handle.
  destruct (ParseEventDetail dec e) as [[dd|dd|dd]|m]; try (simpl; tauto).
  intros Hin.
  assert (Hq : q = wrap32 (fd_Quantity dd)).
  { unfold call in Hin.
    destruct (svc (UpdateStatus (fd_ReservationID dd) StatusCancelled)); simpl in Hin;
      [|destruct Hin as [Hin|[]]; discriminate].
    destruct Hin as [Hin|Hin]; [discriminate|].
    destruct (negb (String.eqb (fd_EventID dd) "") && negb (Nat.eqb (length (fd_SeatIDs dd)) 0));
      [|contradiction].
    destruct (svc (ReleaseHold (fd_EventID dd) (fd_ReservationID dd)
                     (wrap32 (fd_Quantity dd)) (fd_SeatIDs dd))); simpl in Hin;
      destruct Hin as [Hin|Hin]; try contradiction; injection Hin; auto. }
  exists dd. split; [reflexivity|]. split; [exact Hq|].
  destruct (wrap32_range (fd_Quantity dd)) as [Hr Hm].
  rewrite Hq. split; [exact Hr|]. split; [exact Hm|].
  intros Hs. unfold wrap32. apply wrap_id; [lia|exact Hs].
Qed.

Lemma FailedHandler_release_quantity_witness :
  FailedHandler_Handle MoreSamples.dec_failed (fun _ => true) MoreSamples.failed_event
    = ([UpdateStatus "rsv_3" StatusCancelled; ReleaseHold "evt_3" "rsv_3" 2 ["B1"]], Ok tt) /\
  exists d, ParseEventDetail MoreSamples.dec_failed MoreSamples.failed_event = Ok (DFailed d) /\
    2 = wrap32 (fd_Quantity d) /\ - 2 ^ 31 <= 2 < 2 ^ 31 /\ (2 - fd_Quantity d) mod 2 ^ 32 = 0 /\
    (- 2 ^ 31 <= fd_Quantity d < 2 ^ 31 -> 2 = fd_Quantity d).
Proof.
  split; [vm_compute; reflexivity|].
  apply (FailedHandler_release_quantity MoreSamples.dec_failed (fun _ => true)
           MoreSamples.failed_event "evt_3" "rsv_3" 2 ["B1"]).
  vm_compute. right; left; reflexivity.
Defined.

End X18.

Module TraceFacts.

Lemma deleted_app (t1 t2 : list effect) : deleted (t1 ++ t2) = deleted t1 ++ deleted t2.
Proof.
  induction t1 as [|x t1 IH]; [reflexivity|].
  destruct x; simpl; rewrite ?IH; reflexivity.
Qed.

Lemma substring_all (s : string) : String.substring 0 (String.length s) s = s.
Proof. induction s as [|c s IH]; simpl; [reflexivity|]. rewrite IH. reflexivity. Qed.

End TraceFacts.

Module LegacyFacts.
Import Types Legacy TraceFacts.

(** No handler of the first-generation worker deletes a message. *)
Lemma Handle_deleted (svc : effect -> bool) (ev : Event) : deleted (fst (Handle svc ev)) = [].
Proof.
  unfold Handle, handleReservationExpired, handlePaymentApproved, handlePaymentFailed,
    GetReservationExpiredPayload, GetPaymentApprovedPayload, GetPaymentFailedPayload, call.
  repeat (case_match; simpl); reflexivity.
Qed.

Lemma retry_deleted svc next ev (n : nat) (a : Z) :
  deleted (fst (retry svc next ev n a)) = if snd (retry svc next ev n a) then [TraceID ev] else [].
Proof.
  revert a. induction n as [|n IH]; intros a; [reflexivity|]. simpl.
  unfold operation. pose proof (Handle_deleted svc ev) as Hd.
  destruct (Handle svc ev) as [t r]. simpl in Hd |- *.
  destruct (is_ok r); simpl.
  - rewrite deleted_app, Hd. reflexivity.
  - destruct (next (a + 1)) as [d|]; simpl; [|exact Hd].
    specialize (IH (a + 1)).
    destruct (retry svc next ev n (a + 1)) as [t' ok']. simpl in *.
    rewrite deleted_app, Hd. simpl. exact IH.
Qed.

End LegacyFacts.


Module X20.
Import Handlers Poller TraceFacts.

(** X20. One [pollOnce] pass deletes exactly the receipt handles of the
    messages [processMessage] handed to the pool (those with a handle), in
    queue order, and hands the pool exactly their events, in the same
    order; a refused message is neither deleted nor handed over. *)
Theorem pollOnce_loop_deletes_accepted unmarshal send (msgs : list Message) :
  deleted (fst (pollOnce_loop unmarshal send msgs))
    = flat_map (fun m => match processMessage unmarshal send m with
                         | Ok _ => match ReceiptHandle m with Some r => [r] | None => [] end
                         | Err _ => []
                         end) msgs /\
  snd (pollOnce_loop unmarshal send msgs)
    = omap (fun m => match processMessage unmarshal send m with
                     | Ok e => Some e
                     | Err _ => None
                     end) msgs.
Proof.
  induction msgs as [|m rest [IH1 IH2]]; [split; reflexivity|]. simpl.
  destruct (pollOnce_loop unmarshal send rest) as [t q]. simpl in IH1, IH2.
  destruct (processMessage unmarshal send m) as [e|msg]; simpl.
  - unfold delete_effect. rewrite deleted_app, IH1, IH2.
    destruct (ReceiptHandle m); split; reflexivity.
  - split; assumption.
Qed.

End X20.

Module X21.
Import Types Legacy LegacyFacts.

(** X21. The first-generation [processEventWithRetry] deletes at most
    one message, with the event's [TraceID] as receipt handle, and does so
    exactly when it reports success. *)
Theorem processEventWithRetry_deletes_once svc next (ev : Event) (n : nat) :
  deleted (fst (processEventWithRetry svc next ev n))
    = if snd (processEventWithRetry svc next ev n) then [TraceID ev] else [].
Proof. apply retry_deleted. Qed.

End X21.


Module X23.
Import Types Legacy.

(** X23. The first-generation handler of [reservation.expired] first
    sets the reservation to [EXPIRED] and releases the hold only after
    that update succeeded, with the payload's [qty] and [seat_ids]; it
    succeeds exactly when both calls succeed. *)
Theorem legacy_expired_update_then_release (svc : effect -> bool) (ev : Event) :
  Type_ ev = EventTypeReservationExpired ->
  exists p, GetReservationExpiredPayload ev = Ok p /\
    fst (Handle svc ev)
      = UpdateStatus (ReservationID ev) StatusExpired ::
          (if svc (UpdateStatus (ReservationID ev) StatusExpired)
           then [ReleaseHold (EventID ev) (ReservationID ev) (Quantity p) (SeatIDs p)]
           else []) /\
    is_ok (snd (Handle svc ev))
      = svc (UpdateStatus (ReservationID ev) StatusExpired)
        && svc (ReleaseHold (EventID ev) (ReservationID ev) (Quantity p) (SeatIDs p)).
Proof.
  intros Ht. unfold Handle. rewrite Ht. simpl.
  unfold handleReservationExpired.
  destruct (GetReservationExpiredPayload ev) as [p|m] eqn:Hp;
    [|unfold GetReservationExpiredPayload in Hp; discriminate].
  exists p. split; [reflexivity|]. unfold call.
  destruct (svc (UpdateStatus (ReservationID ev) StatusExpired)); simpl; [|split; reflexivity].
  destruct (svc (ReleaseHold (EventID ev) (ReservationID ev) (Quantity p) (SeatIDs p)));
    split; reflexivity.
Qed.

Lemma legacy_expired_update_then_release_witness :
  exists p, GetReservationExpiredPayload Samples.legacy_expired = Ok p /\
    fst (Handle (fun _ => true) Samples.legacy_expired)
      = UpdateStatus "rsv_1" StatusExpired ::
          (if (fun _ => true) (UpdateStatus "rsv_1" StatusExpired)
           then [ReleaseHold "evt_1" "rsv_1" (Quantity p) (SeatIDs p)] else []) /\
    is_ok (snd (Handle (fun _ => true) Samples.legacy_expired))
      = (fun _ => true) (UpdateStatus "rsv_1" StatusExpired)
        && (fun _ => true) (ReleaseHold "evt_1" "rsv_1" (Quantity p) (SeatIDs p)).
Proof. exact (legacy_expired_update_then_release (fun _ => true) Samples.legacy_expired eq_refl).
Defined.

End X23.

Module X24.
Import Clients.

(** X24. [ReservationClient.UpdateReservationStatus] succeeds exactly
    when the URL [<base>/internal/reservations/<id>] is accepted and the
    PATCH with the status payload gets a 2xx response; a transport error
    or any other status code is an error. *)
Theorem UpdateReservationStatus_ok (baseURL : string) (valid_url : string -> bool)
    (do : http_request -> result http_response) (req : UpdateStatusRequest) :
  UpdateReservationStatus baseURL valid_url do req = Ok tt <->
  valid_url (reservation_url baseURL (usr_ReservationID req)) = true /\
  exists resp,
    do (mkRequest "PATCH" (reservation_url baseURL (usr_ReservationID req))
          (Some (status_payload req))) = Ok resp /\
    200 <= StatusCode resp < 300.
Proof.
  unfold UpdateReservationStatus.
  destruct (valid_url (reservation_url baseURL (usr_ReservationID req))); simpl;
    [|split; [discriminate|intros [H _]; discriminate]].
  destruct (do _) as [resp|m] eqn:Hd.
  - destruct (Z.ltb_spec (StatusCode resp) 200); destruct (Z.leb_spec 300 (StatusCode resp));
      simpl; split; try discriminate;
      try (intros [_ [resp' [Hr Hc]]]; injection Hr as ->; lia);
      intros _; split; [reflexivity|exists resp; split; [reflexivity|lia]].
  - split; [discriminate|]. intros [_ [resp' [Hr _]]]. discriminate.
Qed.

End X24.


Module X26.
Import Clients.

(** X26. [ReservationServiceClient.GetReservationStatus] returns [s]
    exactly when the GET on [<base>/internal/reservations/<id>] gets a 2xx
    response whose body is a JSON object with the string [s] under
    ["status"]. *)
Theorem GetReservationStatus_ok (baseURL : string) (valid_url : string -> bool)
    (do : http_request -> result http_response)
    (unmarshal_object : string -> option (gmap string json)) (rid s : string) :
  GetReservationStatus baseURL valid_url do unmarshal_object rid = Ok s <->
  valid_url (reservation_url baseURL rid) = true /\
  exists resp obj,
    do (mkRequest "GET" (reservation_url baseURL rid) None) = Ok resp /\
    200 <= StatusCode resp < 300 /\
    unmarshal_object (RespBody resp) = Some obj /\ obj !! "status" = Some (JString s).
Proof.
  unfold GetReservationStatus.
  destruct (valid_url (reservation_url baseURL rid)); simpl;
    [|split; [discriminate|intros [H _]; discriminate]].
  destruct (do _) as [resp|m] eqn:Hd;
    [|split; [discriminate|intros [_ (resp' & obj & Hr & _)]; discriminate]].
  destruct ((StatusCode resp <? 200) || (300 <=? StatusCode resp)) eqn:Hc.
  - split; [discriminate|]. intros [_ (resp' & obj & Hr & Hc' & _)].
    injection Hr as <-. apply orb_true_iff in Hc as [Hc|Hc];
      [apply Z.ltb_lt in Hc|apply Z.leb_le in Hc]; lia.
  - apply orb_false_iff in Hc as [Hc1 Hc2].
    apply Z.ltb_ge in Hc1. apply Z.leb_gt in Hc2.
    destruct (unmarshal_object (RespBody resp)) as [obj|] eqn:Hu.
    + destruct (obj !! "status") as [[]|] eqn:Hs;
        split; try discriminate;
        try (intros [_ (resp' & obj' & Hr & _ & Hu' & Hs')]; injection Hr as <-;
             rewrite Hu in Hu'; injection Hu' as <-; rewrite Hs in Hs'; discriminate).
      * intros H. injection H as ->. split; [reflexivity|].
        exists resp, obj. repeat split; auto; lia.
      * intros [_ (resp' & obj' & Hr & _ & Hu' & Hs')]. injection Hr as <-.
        rewrite Hu in Hu'. injection Hu' as <-. rewrite Hs in Hs'.
        injection Hs' as ->. reflexivity.
    + split; [discriminate|]. intros [_ (resp' & obj' & Hr & _ & Hu' & _)].
      injection Hr as <-. congruence.
Qed.

End X26.

Module X27.
Import Clients TraceFacts.

(** X27. With the mock inventory client that [NewInventoryServiceClient]
    installs, [ReleaseHold] always succeeds; [CommitReservation] panics on
    a reservation id shorter than four bytes and succeeds otherwise; and
    the mock turns reservation id ["rsv_" + s] into order id
    ["ord_" + s]. *)
Theorem InventoryServiceClient_with_mock (eid rid pid s : string) (qty : Z)
    (seats : list string) :
  InventoryServiceClient_ReleaseHold mock_ReleaseHold eid rid qty seats = Some (Ok tt) /\
  InventoryServiceClient_CommitReservation mock_CommitReservation rid eid qty seats pid
    = (if (String.length rid <? 4)%nat then None else Some (Ok tt)) /\
  mock_CommitReservation (mkCommitReq (String.append "rsv_" s) eid qty seats pid)
    = Some (Ok (mkCommitRes (String.append "ord_" s) "COMMITTED")).
Proof.
  split; [reflexivity|split].
  - unfold InventoryServiceClient_CommitReservation, mock_CommitReservation. simpl.
    destruct (String.length rid <? 4)%nat; reflexivity.
  - unfold mock_CommitReservation. simpl.
    rewrite Nat.sub_0_r, substring_all. reflexivity.
Qed.

End X27.
